(** * NCBI GenBank retriever (s26647_2025-2.py): model and properties

    A shallow embedding of the [NCBIRetriever] class and of [main].
    The Python object, the Biopython/pandas/matplotlib libraries and the
    process (standard output, files) are modelled by explicit state
    passing; every call that can raise returns a [result]. *)

From Stdlib Require Import ZArith List Ascii String Lia.
From Stdlib Require Import Sorting.Sorted Sorting.Permutation.
From stdpp Require Import gmap strings list fin_maps sorting.

Local Open Scope string_scope.
Local Open Scope list_scope.
Local Open Scope Z_scope.

(** ** Python values and exceptions *)

(** A raised exception: its class name and its message. *)
Record exn := PyExn { exn_class : string; exn_msg : string }.

Inductive result (A : Type) : Type :=
| Ok (a : A)
| Raise (e : exn).
Arguments Ok {A} a.
Arguments Raise {A} e.

Definition AttributeError (cls attr : string) : exn :=
  PyExn "AttributeError"
        ("'" +:+ cls +:+ "' object has no attribute '" +:+ attr +:+ "'").

Definition KeyError (k : string) : exn := PyExn "KeyError" ("'" +:+ k +:+ "'").

(** [range(start, stop, step)] for a positive [step]: CPython computes the
    number of items as [(stop - start - 1) / step + 1] when [start < stop]
    and [0] otherwise; item [i] is [start + i * step]. *)
Definition range_len (start stop step : Z) : Z :=
  if start <? stop then (stop - start - 1) / step + 1 else 0.

Definition py_range (start stop step : Z) : list Z :=
  map (fun i : nat => start + Z.of_nat i * step)
      (seq 0 (Z.to_nat (range_len start stop step))).

(** ** Data *)

(** A parsed GenBank record, as far as the script reads it:
    [r.id], [r.seq], [r.description]. *)
Record SeqRecord := mkSeqRecord {
  id : string;
  seq_ : string;
  description : string
}.

(** [len(r.seq)] *)
Definition len (s : string) : Z := Z.of_nat (String.length s).

(** The tuple [(r.id, l, r.description)] appended to [records]. *)
Definition Row : Type := string * Z * string.

Definition Accession (t : Row) : string := t.1.1.
Definition Length (t : Row) : Z := t.1.2.
Definition Description (t : Row) : string := t.2.

(** The instance attributes of an [NCBIRetriever].  [min_len] and [max_len]
    are set by [__init__]; [env], [key] and [count] do not exist until
    [search] assigns them. *)
Record NCBIRetriever := mkRetriever {
  min_len : Z;
  max_len : Z;
  env : option string;
  key : option string;
  count : option Z
}.

(** Keyword arguments of [Entrez.esearch] and [Entrez.efetch]. *)
Record ESearchArgs := mkESearch {
  s_db : string;
  s_term : string;
  s_usehistory : string;
  s_retmax : Z
}.

Record EFetchArgs := mkEFetch {
  f_db : string;
  f_rettype : string;
  f_retmode : string;
  retstart : Z;
  retmax : Z;
  webenv : string;
  query_key : string
}.

(** Module-level settings of [Bio.Entrez]. *)
Record EntrezConfig := mkEntrezConfig {
  email : string;
  api_key : string;
  tool : string
}.

(** History of the exchanges with the remote service: the calls issued, in
    order, and the pages that were parsed. *)
Inductive Event :=
| EvSearch (a : ESearchArgs)
| EvFetch (a : EFetchArgs)
| EvParsed (page : list SeqRecord).

(** A [pandas.DataFrame] holding the three columns: its column names and
    its rows, each with its index label. *)
Record DataFrame := mkDataFrame {
  columns : list string;
  df_rows : list (nat * Row)
}.

(** The figure saved by [plt.savefig]. *)
Record Figure := mkFigure {
  fig_x : list string;
  fig_y : list Z;
  fig_marker : string;
  fig_ylabel : string;
  fig_title : string
}.

Inductive FileContent :=
| CsvFile (header : list string) (lines : list Row)
| PngFile (fig : Figure).

Section Model.

(** State of the remote service. *)
Context {S : Type}.

(** The process around the object: Entrez settings, the remote service,
    the history of calls, standard output and the files written. *)
Record World := mkWorld {
  entrez : option EntrezConfig;
  server : S;
  trace : list Event;
  stdout : list string;
  fs : gmap string FileContent
}.

(** A method runs on its object and the process. *)
Record State := mkState {
  self : NCBIRetriever;
  world : World
}.

(** The library and system calls the script relies on.  Each may raise.
    [open_w] is the creation of a file for writing, as [to_csv] and
    [savefig] do it: the operating system refuses a path it cannot create
    (a missing directory, a read-only location). *)
Record Externals := mkExternals {
  SearchHandle : Type;
  FetchHandle : Type;
  Entrez_esearch : ESearchArgs -> S -> result SearchHandle * S;
  Entrez_read : SearchHandle -> result (gmap string string);
  Entrez_efetch : EFetchArgs -> S -> result FetchHandle * S;
  SeqIO_parse : FetchHandle -> result (list SeqRecord);
  py_int : string -> result Z;
  open_w : string -> result unit
}.

(** ** State and exception monad *)

Definition M (A : Type) : Type := State -> result A * State.

Definition ret {A} (a : A) : M A := fun st => (Ok a, st).

Definition raise {A} (e : exn) : M A := fun st => (Raise e, st).

Definition bind {A B} (m : M A) (k : A -> M B) : M B :=
  fun st => match m st with
            | (Ok a, st') => k a st'
            | (Raise e, st') => (Raise e, st')
            end.

Definition lift {A} (r : result A) : M A := fun st => (r, st).

Definition get_self : M NCBIRetriever := fun st => (Ok (self st), st).

Definition put_self (r : NCBIRetriever) : M unit :=
  fun st => (Ok tt, mkState r (world st)).

Definition modify_world (f : World -> World) : M unit :=
  fun st => (Ok tt, mkState (self st) (f (world st))).

Definition log (ev : Event) : M unit :=
  modify_world (fun w => mkWorld (entrez w) (server w) (trace w ++ [ev])
                                 (stdout w) (fs w)).

Definition print (s : string) : M unit :=
  modify_world (fun w => mkWorld (entrez w) (server w) (trace w)
                                 (stdout w ++ [s]) (fs w)).

(** Writing a file: the path is created, which may raise, and then holds
    the content; a refused path leaves the files as they were. *)
Definition write_file (ext : Externals) (name : string) (c : FileContent)
  : M unit :=
  fun st =>
    match open_w ext name with
    | Ok _ =>
        modify_world (fun w => mkWorld (entrez w) (server w) (trace w)
                                       (stdout w) (<[name := c]> (fs w))) st
    | Raise e => (Raise e, st)
    end.

(** A request to the remote service: it answers and moves to a new state. *)
Definition remote {A} (f : S -> result A * S) : M A :=
  fun st =>
    let w := world st in
    let '(r, s') := f (server w) in
    (r, mkState (self st)
                (mkWorld (entrez w) s' (trace w) (stdout w) (fs w))).

(** Reading an instance attribute that may not have been assigned yet. *)
Definition getattr {A} (name : string) (field : NCBIRetriever -> option A)
  : M A :=
  fun st => match field (self st) with
            | Some v => (Ok v, st)
            | None => (Raise (AttributeError "NCBIRetriever" name), st)
            end.

(** [d[k]] on a dictionary. *)
Definition getitem (d : gmap string string) (k : string) : M string :=
  match d !! k with
  | Some v => ret v
  | None => raise (KeyError k)
  end.

End Model.

Arguments World : clear implicits.
Arguments State : clear implicits.
Arguments Externals : clear implicits.
Arguments M : clear implicits.

Declare Scope py_scope.
Delimit Scope py_scope with py.
Notation "'let*' x ':=' m 'in' k" := (bind m (fun x => k))
  (at level 10, x name, m at level 100, k at level 200) : py_scope.
Notation "m ';;;' k" := (bind m (fun _ => k))
  (at level 100, k at level 200, right associativity) : py_scope.
Local Open Scope py_scope.

Section Retriever.

Context {S : Type} (ext : Externals S).

(** ** [NCBIRetriever] *)

(** [__init__]: sets the Entrez module settings and the two bounds.  The
    new object has no [env], [key] or [count] attribute. *)
Definition init (email api_key : string) (min_len max_len : Z) (w : World S)
  : State S :=
  mkState
    (mkRetriever min_len max_len None None None)
    (mkWorld (Some (mkEntrezConfig email api_key "BioScriptEx10"))
             (server w) (trace w) (stdout w) (fs w)).

(** [search(self, taxid)] *)
Definition search (taxid : string) : M S Z :=
  let term := "txid" +:+ taxid +:+ "[Organism]" in
  let args := mkESearch "nucleotide" term "y" 0 in
  log (EvSearch args) ;;;
  let* handle := remote (Entrez_esearch ext args) in
  let* res := lift (Entrez_read ext handle) in
  let* e := getitem res "WebEnv" in
  let* k := getitem res "QueryKey" in
  let* c_str := getitem res "Count" in
  let* c := lift (py_int ext c_str) in
  let* r := get_self in
  put_self (mkRetriever (min_len r) (max_len r) (Some e) (Some k) (Some c)) ;;;
  getattr "count" count.

(** Body of the inner loop: [if self.min_len <= l <= self.max_len:
    records.append((r.id, l, r.description))]. *)
Definition keep (lo hi : Z) (records : list Row) (r : SeqRecord) : list Row :=
  let l := len (seq_ r) in
  if (lo <=? l) && (l <=? hi)
  then records ++ [(id r, l, description r)]
  else records.

(** One iteration of the outer loop, for one [start]. *)
Definition fetch_page (step start : Z) (records : list Row) : M S (list Row) :=
  let* e := getattr "env" env in
  let* k := getattr "key" key in
  let args := mkEFetch "nucleotide" "gb" "text" start step e k in
  log (EvFetch args) ;;;
  let* handle := remote (Entrez_efetch ext args) in
  let* page := lift (SeqIO_parse ext handle) in
  log (EvParsed page) ;;;
  let* r := get_self in
  ret (fold_left (keep (min_len r) (max_len r)) page records).

(** [for start in starts: ...], threading the local list [records]. *)
Fixpoint for_each (starts : list Z) (body : Z -> list Row -> M S (list Row))
  (records : list Row) : M S (list Row) :=
  match starts with
  | [] => ret records
  | start :: rest =>
      let* records' := body start records in
      for_each rest body records'
  end.

(** [fetch_and_filter(self, max_records=200)] *)
Definition fetch_and_filter (max_records : Z) : M S (list Row) :=
  let records := [] in
  let step := 100 in
  let* c := getattr "count" count in
  for_each (py_range 0 (Z.min c max_records) step) (fetch_page step) records.

(** ** Output: [save_csv] and [plot_lengths] *)

(** [DataFrame.sort_values(by, ascending=...)] on an integer column, with
    the default [kind='quicksort'].  The rows are put in the order of the
    column.  Which of two rows with equal keys comes first is decided
    inside the library's sort kernel and not by the script: it is the one
    thing taken from the library, as a rule on the index labels. *)
Record Pandas := mkPandas {
  tie_first : nat -> nat -> bool
}.

(** The order of the column alone. *)
Definition by_column (col : Row -> Z) (ascending : bool) (a b : nat * Row)
  : Prop :=
  if ascending then col a.2 <= col b.2 else col b.2 <= col a.2.

(** Whether the labelled row [a] is placed before [b]. *)
Definition goes_first (pd : Pandas) (col : Row -> Z) (ascending : bool)
  (a b : nat * Row) : bool :=
  if col a.2 =? col b.2 then tie_first pd a.1 b.1
  else if ascending then col a.2 <? col b.2 else col b.2 <? col a.2.

Fixpoint insert_row (pd : Pandas) (col : Row -> Z) (ascending : bool)
  (x : nat * Row) (l : list (nat * Row)) : list (nat * Row) :=
  match l with
  | [] => [x]
  | y :: l' =>
      if goes_first pd col ascending x y then x :: y :: l'
      else y :: insert_row pd col ascending x l'
  end.

Definition sort_values (pd : Pandas) (col : Row -> Z) (ascending : bool)
  (l : list (nat * Row)) : list (nat * Row) :=
  fold_right (insert_row pd col ascending) [] l.

Context (pd : Pandas).

(** [pd.DataFrame(data, columns=cols)]: the rows get the index labels
    [0, 1, 2, ...]. *)
Definition pd_DataFrame (data : list Row) (cols : list string) : DataFrame :=
  mkDataFrame cols (zip (seq 0 (length data)) data).

(** [df.to_csv(filename, index=False)]: header and rows, index dropped. *)
Definition to_csv (df : DataFrame) (filename : string) : M S unit :=
  write_file ext filename (CsvFile (columns df) (map snd (df_rows df))).

(** [save_csv(self, data, filename)] *)
Definition save_csv (data : list Row) (filename : string) : M S DataFrame :=
  let df := pd_DataFrame data ["Accession"; "Length"; "Description"] in
  let df := mkDataFrame (columns df)
                        (sort_values pd Length false (df_rows df)) in
  to_csv df filename ;;;
  ret df.

(** The figure built by [plt.plot(df["Accession"], df["Length"],
    marker='o')], [plt.ylabel] and [plt.title]. *)
Definition figure_of (df : DataFrame) : Figure :=
  mkFigure (map (fun r => Accession r.2) (df_rows df))
           (map (fun r => Length r.2) (df_rows df))
           "o" "Sequence Length" "GenBank Sequence Lengths".

(** [plot_lengths(self, df, output)]: the figure is drawn and saved with
    [plt.savefig(output)]. *)
Definition plot_lengths (df : DataFrame) (output : string) : M S unit :=
  write_file ext output (PngFile (figure_of df)).

(** ** [main] *)

(** The parsed command line. [--max_len] defaults to [1e6], which compares
    with an integer length as [1000000] does. *)
Record Args := mkArgs {
  a_email : string;
  a_api_key : string;
  a_taxid : string;
  a_min_len : Z;
  a_max_len : Z;
  a_limit : Z
}.

Definition csv_name (taxid : string) : string :=
  "taxid_" +:+ taxid +:+ "_filtered.csv".

Definition png_name (taxid : string) : string :=
  "taxid_" +:+ taxid +:+ "_plot.png".

(** The body of [main] after the retriever [r] has been constructed. *)
Definition main_body (args : Args) : M S unit :=
  print ("Searching TaxID " +:+ a_taxid args +:+ "...") ;;;
  let* c := search (a_taxid args) in
  if c =? 0 then
    print "No records found."
  else
    print "Fetching & filtering..." ;;;
    let* data := fetch_and_filter (a_limit args) in
    match data with
    | [] => print "No records within length range."
    | _ :: _ =>
        let csv_file := csv_name (a_taxid args) in
        let png_file := png_name (a_taxid args) in
        let* df := save_csv data csv_file in
        plot_lengths df png_file ;;;
        print ("Saved CSV: " +:+ csv_file) ;;;
        print ("Saved plot: " +:+ png_file)
    end.

Definition main (args : Args) (w : World S) : result unit * World S :=
  let st := init (a_email args) (a_api_key args)
                 (a_min_len args) (a_max_len args) w in
  let '(r, st') := main_body args st in
  (r, world st').

(** Running the script: the interpreter exits with status [0] when [main]
    returns and with status [1] when an exception reaches the top level. *)
Definition run_script (args : Args) (w : World S) : Z * World S :=
  match main args w with
  | (Ok _, w') => (0, w')
  | (Raise _, w') => (1, w')
  end.

End Retriever.

(** ** Observations on a run *)

(** The fetch calls among some events, in the order they were issued. *)
Fixpoint fetch_calls (evs : list Event) : list EFetchArgs :=
  match evs with
  | [] => []
  | EvFetch a :: evs' => a :: fetch_calls evs'
  | _ :: evs' => fetch_calls evs'
  end.

(** The search calls among some events, in the order they were issued. *)
Fixpoint search_calls (evs : list Event) : list ESearchArgs :=
  match evs with
  | [] => []
  | EvSearch a :: evs' => a :: search_calls evs'
  | _ :: evs' => search_calls evs'
  end.

(** The records of all the pages parsed, in order. *)
Fixpoint fetched_records (evs : list Event) : list SeqRecord :=
  match evs with
  | [] => []
  | EvParsed page :: evs' => page ++ fetched_records evs'
  | _ :: evs' => fetched_records evs'
  end.

(** The sizes of the pages parsed, in order. *)
Fixpoint page_sizes (evs : list Event) : list nat :=
  match evs with
  | [] => []
  | EvParsed page :: evs' => length page :: page_sizes evs'
  | _ :: evs' => page_sizes evs'
  end.

(** What a run from [st] to [st'] added to the history. *)
Definition events_since {S} (st st' : State S) : list Event :=
  drop (length (trace (world st))) (trace (world st')).

(** The triple the script builds from a record, and its length test. *)
Definition triple (r : SeqRecord) : Row := (id r, len (seq_ r), description r).

Definition in_range (lo hi : Z) (r : SeqRecord) : bool :=
  (lo <=? len (seq_ r)) && (len (seq_ r) <=? hi).


(** What a method leaves alone in the process: the Entrez settings,
    standard output and the files. *)
Definition same_process {S} (w w' : World S) : Prop :=
  entrez w' = entrez w /\ stdout w' = stdout w /\ fs w' = fs w.

(** A run from [st] to [st'] that only talked to the remote service, adding
    the events [evs] to the history. *)
Definition extends {S} (st st' : State S) (evs : list Event) : Prop :=
  self st' = self st /\
  same_process (world st) (world st') /\
  trace (world st') = trace (world st) ++ evs.

(** The call issued for the window at [start] carries the session stored
    in the object and the page size [step]. *)
Definition window_call (r : NCBIRetriever) (step start : Z) (a : EFetchArgs)
  : Prop :=
  retstart a = start /\ retmax a = step /\
  env r = Some (webenv a) /\ key r = Some (query_key a).

(** The keyword arguments [search] passes to [Entrez.esearch]. *)
Definition search_args (taxid : string) : ESearchArgs :=
  mkESearch "nucleotide" ("txid" +:+ taxid +:+ "[Organism]") "y" 0.

(** The states in which no search has returned yet: the object as
    [__init__] leaves it, possibly after searches that raised. *)
Inductive no_search_yet {S} (ext : Externals S) : State S -> Prop :=
| nsy_init email api_key lo hi w :
    no_search_yet ext (init email api_key lo hi w)
| nsy_failed taxid st x st1 :
    no_search_yet ext st ->
    search ext taxid st = (Raise x, st1) ->
    no_search_yet ext st1.

(** The rows of the CSV file [name], if it has been written. *)
Definition persisted_rows {S} (w : World S) (name : string) : list Row :=
  match fs w !! name with
  | Some (CsvFile _ lines) => lines
  | _ => []
  end.

(** The first line [main] prints. *)
Definition searching_msg (taxid : string) : string :=
  "Searching TaxID " +:+ taxid +:+ "...".


(** Descending order of lengths. *)
Definition length_desc (a b : Row) : Prop := Length b <= Length a.


(** ** Reference instances of the libraries

    A small in-memory service and a sort kernel, used to run the
    model on concrete inputs. *)

Module Demo.

(** [int(s)] on a string of decimal digits. *)
Definition digit_of (c : ascii) : option Z :=
  let n := Z.of_nat (nat_of_ascii c) in
  if (48 <=? n) && (n <=? 57) then Some (n - 48) else None.

Fixpoint parse_digits (s : string) (acc : Z) : option Z :=
  match s with
  | EmptyString => Some acc
  | String c s' =>
      match digit_of c with
      | Some d => parse_digits s' (10 * acc + d)
      | None => None
      end
  end.

Definition int (s : string) : result Z :=
  match s with
  | EmptyString => Raise (PyExn "ValueError" "invalid literal for int()")
  | _ => match parse_digits s 0 with
         | Some z => Ok z
         | None => Raise (PyExn "ValueError" "invalid literal for int()")
         end
  end.

(** Decimal rendering of a count. *)
Definition digit_char (d : nat) : ascii := ascii_of_nat (48 + d).

Fixpoint render_digits (fuel n : nat) (acc : string) : string :=
  match fuel with
  | O => acc
  | Datatypes.S fuel' =>
      let acc' := String (digit_char (n mod 10)) acc in
      if (n / 10 =? 0)%nat then acc' else render_digits fuel' (n / 10) acc'
  end.

Definition str (n : nat) : string := render_digits (Datatypes.S n) n "".

Definition slice {A} (start size : Z) (l : list A) : list A :=
  take (Z.to_nat size) (drop (Z.to_nat start) l).

(** A service holding the records [db]; its state counts the requests it
    has answered.  A fetch with an unknown session is refused; a fetch
    whose request number is [fail_at] fails in transport. *)
Definition the_webenv : string := "MCID_0001".
Definition the_query_key : string := "1".

Definition esearch (db : list SeqRecord) (a : ESearchArgs) (n : nat)
  : result (gmap string string) * nat :=
  (Ok (<["WebEnv" := the_webenv]>
       (<["QueryKey" := the_query_key]>
        (<["Count" := str (length db)]> ∅))), Datatypes.S n).

Definition efetch (db : list SeqRecord) (fail_at : option nat)
  (a : EFetchArgs) (n : nat) : result (list SeqRecord) * nat :=
  if decide (fail_at = Some n) then
    (Raise (PyExn "URLError" "connection reset"), Datatypes.S n)
  else if String.eqb (webenv a) the_webenv
          && String.eqb (query_key a) the_query_key then
    (Ok (slice (retstart a) (retmax a) db), Datatypes.S n)
  else
    (Raise (PyExn "HTTPError" "HTTP Error 400: Bad Request"), Datatypes.S n).

(** A working directory without subdirectories: a path containing a
    separator names a directory that does not exist and cannot be
    created; any other file can. *)
Fixpoint has_slash (name : string) : bool :=
  match name with
  | EmptyString => false
  | String c rest => Ascii.eqb c "/" || has_slash rest
  end.

Definition open_path (name : string) : result unit :=
  if has_slash name
  then Raise (PyExn "OSError" "Cannot save file into a non-existent directory")
  else Ok tt.

Definition ext (db : list SeqRecord) (fail_at : option nat) : Externals nat :=
  {| SearchHandle := gmap string string;
     FetchHandle := list SeqRecord;
     Entrez_esearch := esearch db;
     Entrez_read := Ok;
     Entrez_efetch := efetch db fail_at;
     SeqIO_parse := Ok;
     py_int := int;
     open_w := open_path |}.

(** The process before the script starts. *)
Definition world0 : World nat := mkWorld None 0%nat [] [] ∅.

(** A record whose sequence has [n] bases. *)
Definition rec_of_len (name : string) (n : nat) : SeqRecord :=
  mkSeqRecord name (String.concat "" (replicate n "A")) ("record " +:+ name).

(** [n] records, named by their position, with lengths [1, 2, 3, ...]. *)
Definition numbered_db (n : nat) : list SeqRecord :=
  map (fun i => rec_of_len ("ACC" +:+ str i) (Datatypes.S i)) (seq 0 n).

(** Records of lengths 50, 2000 and 800. *)
Definition three_db : list SeqRecord :=
  [rec_of_len "A1" 50; rec_of_len "A2" 2000; rec_of_len "A3" 800].

(** A retriever that has completed a search with the given count. *)
Definition searched (lo hi : Z) (c : Z) : State nat :=
  mkState (mkRetriever lo hi (Some the_webenv) (Some the_query_key) (Some c))
          world0.

(** Command lines for taxon 9606 with the default limit. *)
Definition args (lo hi : Z) : Args := mkArgs "a@b.c" "k" "9606" lo hi 200.

Definition rows4 : list Row :=
  [("a", 120, "first"); ("b", 500, "second");
   ("c", 120, "third"); ("d", 300, "fourth")].

(** The sort kernel that leaves rows with equal keys in the order of their
    index labels, that is in input order. *)
Definition pandas_a : Pandas := mkPandas Nat.leb.

End Demo.

(** A service whose search answers with a given dictionary, or fails in
    transport, to run the error paths of [search] and [main]. *)
Module Faulty.

(** The search answers with [resp]; the request numbered [fail_at] fails
    in transport. *)
Definition esearch (resp : gmap string string) (fail_at : option nat)
  (a : ESearchArgs) (n : nat) : result (gmap string string) * nat :=
  if decide (fail_at = Some n) then
    (Raise (PyExn "URLError" "connection reset"), Datatypes.S n)
  else
    (Ok resp, Datatypes.S n).

(** Fetches are served from [db] as in [Demo]. *)
Definition ext (resp : gmap string string) (fail_at : option nat)
  (db : list SeqRecord) : Externals nat :=
  {| SearchHandle := gmap string string;
     FetchHandle := list SeqRecord;
     Entrez_esearch := esearch resp fail_at;
     Entrez_read := Ok;
     Entrez_efetch := Demo.efetch db None;
     SeqIO_parse := Ok;
     py_int := Demo.int;
     open_w := Demo.open_path |}.

(** The service of [Demo] in a directory where image files cannot be
    created: a path ending in [.png] is refused, any other is accepted. *)
Definition open_no_png (name : string) : result unit :=
  if String.eqb (substring (String.length name - 4) 4 name) ".png"
  then Raise (PyExn "PermissionError" "Permission denied")
  else Ok tt.

Definition ext_plot_refused (db : list SeqRecord) : Externals nat :=
  {| SearchHandle := gmap string string;
     FetchHandle := list SeqRecord;
     Entrez_esearch := Demo.esearch db;
     Entrez_read := Ok;
     Entrez_efetch := Demo.efetch db None;
     SeqIO_parse := Ok;
     py_int := Demo.int;
     open_w := open_no_png |}.

(** A complete response announcing three records. *)
Definition response3 : gmap string string :=
  <["WebEnv" := Demo.the_webenv]>
    (<["QueryKey" := Demo.the_query_key]> (<["Count" := "3"]> ∅)).

(** A response without its [Count] field. *)
Definition response_no_count : gmap string string :=
  <["WebEnv" := Demo.the_webenv]> (<["QueryKey" := Demo.the_query_key]> ∅).

(** A response whose [Count] is not a number. *)
Definition response_bad_count : gmap string string :=
  <["WebEnv" := Demo.the_webenv]>
    (<["QueryKey" := Demo.the_query_key]> (<["Count" := "many"]> ∅)).

End Faulty.

(** * Properties *)

(** ** [range] *)

Lemma range_len_nonneg start stop step :
  0 < step -> 0 <= range_len start stop step.
Proof.
  intros Hs. unfold range_len. destruct (Z.ltb_spec start stop); [|lia].
  assert (0 <= (stop - start - 1) / step) by (apply Z.div_pos; lia). lia.
Qed.

Lemma py_range_lookup start stop step (i : nat) :
  0 < step ->
  py_range start stop step !! i =
    if decide (Z.of_nat i < range_len start stop step)
    then Some (start + Z.of_nat i * step) else None.
Proof.
  intros Hs. unfold py_range. rewrite list_lookup_fmap.
  pose proof (range_len_nonneg start stop step Hs).
  case_decide.
  - rewrite lookup_seq_lt by lia. reflexivity.
  - rewrite lookup_seq_ge by lia. reflexivity.
Qed.

Lemma range_len_bound start stop step i :
  0 < step -> 0 <= i ->
  i < range_len start stop step <-> start + i * step < stop.
Proof.
  intros Hs Hi. unfold range_len. destruct (Z.ltb_spec start stop).
  - split; intros Hlt.
    + assert (i <= (stop - start - 1) / step) by lia.
      assert (i * step <= stop - start - 1); [|lia].
      transitivity (step * ((stop - start - 1) / step)); [nia|].
      apply Z.mul_div_le; lia.
    + assert (i <= (stop - start - 1) / step); [|lia].
      apply Z.div_le_lower_bound; lia.
  - split; [lia|nia].
Qed.

Lemma elem_of_py_range start stop step k :
  0 < step ->
  k ∈ py_range start stop step <->
  start <= k < stop /\ (k - start) mod step = 0.
Proof.
  intros Hs. rewrite list_elem_of_lookup. split.
  - intros [i Hi]. rewrite py_range_lookup in Hi by done.
    case_decide; [|done]. injection Hi as <-.
    apply range_len_bound in H; [|lia..].
    split; [nia|].
    replace (start + Z.of_nat i * step - start) with (Z.of_nat i * step) by lia.
    apply Z.mod_mul; lia.
  - intros [[Hlo Hhi] Hmod].
    apply Z.mod_divide in Hmod; [|lia]. destruct Hmod as [q Hq].
    assert (0 <= q) by nia.
    exists (Z.to_nat q). rewrite py_range_lookup by done.
    rewrite Z2Nat.id by done.
    rewrite decide_True; [f_equal; lia|].
    apply range_len_bound; lia.
Qed.

Lemma py_range_sorted start stop step :
  0 < step -> StronglySorted Z.lt (py_range start stop step).
Proof.
  intros Hs. unfold py_range.
  generalize (Z.to_nat (range_len start stop step)) as n.
  generalize 0%nat as b. intros b n. revert b.
  induction n as [|n IH]; intros b; simpl; constructor.
  - apply IH.
  - apply List.Forall_forall. intros x Hx. apply in_map_iff in Hx.
    destruct Hx as [j [<- Hj]]. apply in_seq in Hj. nia.
Qed.

Lemma py_range_empty start stop step : stop <= start -> py_range start stop step = [].
Proof.
  intros H. unfold py_range, range_len.
  destruct (Z.ltb_spec start stop); [lia|reflexivity].
Qed.

(** ** The inner filter *)

Lemma fold_keep lo hi page records :
  fold_left (keep lo hi) page records =
  records ++ map triple (List.filter (in_range lo hi) page).
Proof.
  revert records. induction page as [|r page IH]; intros records; simpl.
  - by rewrite app_nil_r.
  - rewrite IH. unfold keep, in_range.
    destruct ((lo <=? len (seq_ r)) && (len (seq_ r) <=? hi)); simpl.
    + by rewrite <- app_assoc.
    + reflexivity.
Qed.

Lemma fetch_calls_app evs1 evs2 :
  fetch_calls (evs1 ++ evs2) = fetch_calls evs1 ++ fetch_calls evs2.
Proof.
  induction evs1 as [|[a|a|p] evs1 IH]; simpl; by rewrite ?IH.
Qed.

Section RetrieverFacts.

Context {S : Type} (ext : Externals S).

Lemma extends_refl (st : State S) : extends st st [].
Proof. unfold extends, same_process. by rewrite app_nil_r. Qed.

Lemma extends_trans (st1 st2 st3 : State S) evs1 evs2 :
  extends st1 st2 evs1 -> extends st2 st3 evs2 -> extends st1 st3 (evs1 ++ evs2).
Proof.
  unfold extends, same_process.
  intros (Hs1 & (He1 & Ho1 & Hf1) & Ht1) (Hs2 & (He2 & Ho2 & Hf2) & Ht2).
  rewrite Hs2, He2, Ho2, Hf2, Ht2, Ht1, app_assoc. done.
Qed.

Lemma extends_events (st st' : State S) evs : extends st st' evs -> events_since st st' = evs.
Proof.
  intros (_ & _ & Ht). unfold events_since. rewrite Ht.
  by rewrite drop_app_length.
Qed.

Lemma fetch_page_spec step start records st r st' :
  fetch_page ext step start records st = (r, st') ->
  exists evs, extends st st' evs /\
    match r with
    | Ok out =>
        exists a page, evs = [EvFetch a; EvParsed page] /\
          window_call (self st) step start a /\
          out = fold_left (keep (min_len (self st)) (max_len (self st)))
                          page records
    | Raise _ =>
        evs = [] \/ exists a, evs = [EvFetch a] /\
                              window_call (self st) step start a
    end.
Proof.
  unfold fetch_page, bind, getattr, log, modify_world, remote, lift,
    get_self, ret.
  destruct st as [slf w]; simpl.
  destruct (env slf) as [e|] eqn:He; simpl;
    [|intros [= <- <-]; exists []; split; [apply extends_refl|by left]].
  destruct (key slf) as [k|] eqn:Hk; simpl;
    [|intros [= <- <-]; exists []; split; [apply extends_refl|by left]].
  destruct (Entrez_efetch ext _ (server w)) as [[h|x] s'] eqn:Hf; simpl.
  - destruct (SeqIO_parse ext h) as [page|x] eqn:Hp; intros [= <- <-].
    + eexists [_; _]. split.
      * unfold extends, same_process; simpl. by rewrite <- app_assoc.
      * eexists _, _. split; [reflexivity|]. by repeat split.
    + eexists [_]. split; [by unfold extends, same_process|].
      right. eexists. split; [reflexivity|]. by repeat split.
  - intros [= <- <-]. eexists [_]. split; [by unfold extends, same_process|].
    right. eexists. split; [reflexivity|]. by repeat split.
Qed.

(** Summary of a run of the window loop over [starts]. *)
Lemma for_each_spec step starts records st r st' :
  for_each starts (fetch_page ext step) records st = (r, st') ->
  exists evs, extends st st' evs /\
    Forall (fun a => retmax a = step /\
                     env (self st) = Some (webenv a) /\
                     key (self st) = Some (query_key a)) (fetch_calls evs) /\
    match r with
    | Ok out =>
        map retstart (fetch_calls evs) = starts /\
        length (page_sizes evs) = length starts /\
        out = fold_left (keep (min_len (self st)) (max_len (self st)))
                        (fetched_records evs) records
    | Raise _ =>
        starts <> [] /\
        map retstart (fetch_calls evs) `prefix_of` starts
    end.
Proof.
  revert records st. induction starts as [|start rest IH]; intros records st.
  - intros [= <- <-]. exists []. split; [apply extends_refl|].
    split; [constructor|]. done.
  - simpl. unfold bind at 1.
    destruct (fetch_page ext step start records st) as [[out1|x] st1] eqn:H1.
    + apply fetch_page_spec in H1 as (evs1 & Hext1 & a & page & -> & Hw & ->).
      intros H2. apply IH in H2 as (evs2 & Hext2 & Hall & Hr).
      assert (Hself : self st1 = self st) by apply Hext1.
      rewrite Hself in Hall, Hr.
      exists ([EvFetch a; EvParsed page] ++ evs2). split.
      { eapply extends_trans; eassumption. }
      destruct Hw as (Hstart & Hmax & He & Hk). simpl. split.
      { constructor; done. }
      destruct r as [out|x].
      * destruct Hr as (Hoff & Hlen & ->). split; [by rewrite Hstart, Hoff|].
        split; [by rewrite Hlen|]. by rewrite fold_left_app.
      * destruct Hr as [_ Hpre]. split; [done|].
        rewrite Hstart. by apply prefix_cons.
    + intros [= <- <-].
      apply fetch_page_spec in H1 as (evs1 & Hext1 & Hr).
      exists evs1. split; [done|].
      destruct Hr as [->|(a & -> & Hstart & Hmax & He & Hk)]; simpl.
      * split; [constructor|]. split; [done|]. apply prefix_nil.
      * split; [by repeat constructor|]. split; [done|].
        rewrite Hstart. apply prefix_cons, prefix_nil.
Qed.

(** Summary of a run of [fetch_and_filter]. *)
Lemma fetch_and_filter_spec max_records st r st' :
  fetch_and_filter ext max_records st = (r, st') ->
  match count (self st) with
  | None => r = Raise (AttributeError "NCBIRetriever" "count") /\ st' = st
  | Some c =>
      exists evs, extends st st' evs /\
        Forall (fun a => retmax a = 100 /\
                         env (self st) = Some (webenv a) /\
                         key (self st) = Some (query_key a))
               (fetch_calls evs) /\
        match r with
        | Ok out =>
            map retstart (fetch_calls evs)
              = py_range 0 (Z.min c max_records) 100 /\
            length (page_sizes evs)
              = length (py_range 0 (Z.min c max_records) 100) /\
            out = map triple
                      (List.filter
                         (in_range (min_len (self st)) (max_len (self st)))
                         (fetched_records evs))
        | Raise _ =>
            0 < Z.min c max_records /\
            map retstart (fetch_calls evs)
              `prefix_of` py_range 0 (Z.min c max_records) 100
        end
  end.
Proof.
  unfold fetch_and_filter, bind at 1. unfold getattr.
  destruct (count (self st)) as [c|] eqn:Hc.
  - intros H. apply for_each_spec in H as (evs & Hext & Hall & Hr).
    exists evs. split; [done|]. split; [done|].
    destruct r as [out|x].
    + destruct Hr as (Hoff & Hlen & ->). rewrite fold_keep. done.
    + destruct Hr as [Hne Hpre]. split; [|done].
      destruct (Z.le_gt_cases (Z.min c max_records) 0) as [Hle|Hgt]; [|lia].
      by rewrite py_range_empty in Hne.
  - intros [= <- <-]. done.
Qed.

End RetrieverFacts.

(** ** [search] *)

Section SearchFacts.

Context {S : Type} (ext : Externals S).

(** A search that returns stores in the object exactly the [WebEnv] and
    [QueryKey] of the response and the integer value of its [Count]. *)
Lemma search_ok taxid st c st1 :
  search ext taxid st = (Ok c, st1) ->
  exists h s' res e k c_str,
    Entrez_esearch ext (search_args taxid) (server (world st)) = (Ok h, s') /\
    Entrez_read ext h = Ok res /\
    res !! "WebEnv" = Some e /\ res !! "QueryKey" = Some k /\
    res !! "Count" = Some c_str /\ py_int ext c_str = Ok c /\
    self st1 = mkRetriever (min_len (self st)) (max_len (self st))
                           (Some e) (Some k) (Some c) /\
    same_process (world st) (world st1) /\
    server (world st1) = s' /\
    trace (world st1) = trace (world st) ++ [EvSearch (search_args taxid)].
Proof.
  unfold search, bind, log, modify_world, remote, lift, getitem, get_self,
    put_self, getattr, ret, raise.
  fold (search_args taxid). destruct st as [slf w]; simpl.
  destruct (Entrez_esearch ext _ (server w)) as [[h|x] s'] eqn:Hs; simpl;
    [|discriminate].
  destruct (Entrez_read ext h) as [res|x] eqn:Hr; simpl; [|discriminate].
  destruct (res !! "WebEnv") as [e|] eqn:He; simpl; [|discriminate].
  destruct (res !! "QueryKey") as [k|] eqn:Hk; simpl; [|discriminate].
  destruct (res !! "Count") as [c_str|] eqn:Hc; simpl; [|discriminate].
  destruct (py_int ext c_str) as [c'|x] eqn:Hi; simpl; [|discriminate].
  intros [= <- <-]. exists h, s', res, e, k, c_str. simpl.
  unfold same_process. done.
Qed.

(** A search that raises leaves the object as it was. *)
Lemma search_raise taxid st x st1 :
  search ext taxid st = (Raise x, st1) ->
  self st1 = self st /\ same_process (world st) (world st1).
Proof.
  unfold search, bind, log, modify_world, remote, lift, getitem, get_self,
    put_self, getattr, ret, raise.
  destruct st as [slf w]; simpl.
  destruct (Entrez_esearch ext _ (server w)) as [[h|y] s'] eqn:Hs; simpl;
    [|by intros [= <- <-]].
  destruct (Entrez_read ext h) as [res|y] eqn:Hr; simpl;
    [|by intros [= <- <-]].
  destruct (res !! "WebEnv") as [e|] eqn:He; simpl; [|by intros [= <- <-]].
  destruct (res !! "QueryKey") as [k|] eqn:Hk; simpl; [|by intros [= <- <-]].
  destruct (res !! "Count") as [c_str|] eqn:Hc; simpl; [|by intros [= <- <-]].
  destruct (py_int ext c_str) as [c'|y] eqn:Hi; simpl; [|by intros [= <- <-]].
  discriminate.
Qed.

Lemma no_search_yet_count st : no_search_yet ext st -> count (self st) = None.
Proof.
  induction 1 as [|taxid st x st1 _ IH Hs]; [reflexivity|].
  apply search_raise in Hs as [-> _]. exact IH.
Qed.

End SearchFacts.

(** ** Pagination *)

Lemma StronglySorted_lt_NoDup (l : list Z) : StronglySorted Z.lt l -> NoDup l.
Proof.
  induction 1 as [|x l _ IH Hx]; constructor; [|exact IH].
  intros Hin. rewrite List.Forall_forall in Hx.
  apply list_elem_of_In, Hx in Hin. lia.
Qed.

Lemma py_range_length start stop step :
  length (py_range start stop step) = Z.to_nat (range_len start stop step).
Proof. unfold py_range. by rewrite length_map, length_seq. Qed.

(** C1. With [count = T], the offsets [retstart] of the fetch calls issued
    by [fetch_and_filter(M)] are the windows [0, 100, 200, ...] strictly
    below [min(T, M)]: always an initial part of them, and all of them when
    the call returns; the windows are the multiples of 100 in
    [[0, min(T, M))], the [i]-th being [100 * i], in increasing order and
    without repetition.  For [T = 250] and [M = 200] the windows are [0]
    and [100], and offset [200] is never issued. *)
Theorem fetch_offsets_exact {S} (ext : Externals S) (T M : Z)
  (st st' : State S) (r : result (list Row)) :
  count (self st) = Some T ->
  fetch_and_filter ext M st = (r, st') ->
  let offsets := map retstart (fetch_calls (events_since st st')) in
  let windows := py_range 0 (Z.min T M) 100 in
  offsets `prefix_of` windows /\
  (forall out, r = Ok out -> offsets = windows) /\
  (forall k, k ∈ windows <-> 0 <= k < Z.min T M /\ k mod 100 = 0) /\
  (forall i : nat, (i < length windows)%nat ->
                   windows !! i = Some (100 * Z.of_nat i)) /\
  StronglySorted Z.lt windows /\
  NoDup windows /\
  (T = 250 -> M = 200 -> windows = [0; 100] /\ 200 ∉ offsets).
Proof.
  intros Hc Hrun offsets windows.
  apply fetch_and_filter_spec in Hrun. rewrite Hc in Hrun.
  destruct Hrun as (evs & Hext & _ & Hr).
  assert (Hoff : offsets = map retstart (fetch_calls evs)).
  { unfold offsets. by rewrite (extends_events _ _ _ Hext). }
  assert (Hpre : offsets `prefix_of` windows).
  { rewrite Hoff. destruct r as [out|x]; [|apply Hr].
    destruct Hr as [-> _]. done. }
  split; [exact Hpre|]. split.
  { intros out ->. rewrite Hoff. apply Hr. }
  split.
  { intros k. unfold windows. rewrite elem_of_py_range by lia.
    by rewrite Z.sub_0_r. }
  split.
  { intros i Hi. unfold windows in *. rewrite py_range_length in Hi.
    rewrite py_range_lookup by lia.
    rewrite decide_True by lia. f_equal. lia. }
  split; [apply py_range_sorted; lia|].
  split; [apply StronglySorted_lt_NoDup, py_range_sorted; lia|].
  intros -> ->. assert (Hw : windows = [0; 100]) by reflexivity.
  split; [exact Hw|]. intros Hin.
  rewrite Hw in Hpre. destruct Hpre as [rest Hrest].
  assert (H200 : (200 : Z) ∈ [0; 100]).
  { rewrite Hrest. apply elem_of_app. by left. }
  rewrite !elem_of_cons, elem_of_nil in H200. lia.
Qed.

Lemma fetch_offsets_exact_witness :
  let ext := Demo.ext (Demo.numbered_db 250) None in
  let st := Demo.searched 0 1000000 250 in
  let run := fetch_and_filter ext 200 st in
  map retstart (fetch_calls (events_since st run.2)) = [0; 100].
Proof.
  intros ext st run.
  destruct (fetch_offsets_exact ext 250 200 st run.2 run.1 eq_refl
              (surjective_pairing run)) as (_ & Hall & _ & _ & _ & _ & Hex).
  destruct (Hex eq_refl eq_refl) as [Hw _].
  destruct run.1 as [out|x] eqn:Hr; [|vm_compute in Hr; discriminate].
  rewrite (Hall out eq_refl). exact Hw.
Defined.

(** C9. Every fetch call issued by [fetch_and_filter] asks for
    [retmax = 100].  When the call returns and [min(count, M)] is positive,
    the last call starts at the last multiple of 100 below [min(count, M)]
    and still asks for 100 records, however few of the budget
    [min(count, M) - retstart] remain. *)
Theorem page_size_constant {S} (ext : Externals S) (M : Z) (st : State S) :
  let st' := (fetch_and_filter ext M st).2 in
  let calls := fetch_calls (events_since st st') in
  Forall (fun a => retmax a = 100) calls /\
  (forall T out,
      count (self st) = Some T ->
      (fetch_and_filter ext M st).1 = Ok out ->
      0 < Z.min T M ->
      exists a, last calls = Some a /\
                retstart a = 100 * ((Z.min T M - 1) / 100) /\
                retmax a = 100 /\
                0 < Z.min T M - retstart a <= 100).
Proof.
  intros st' calls.
  pose proof (fetch_and_filter_spec ext M st _ _
                (surjective_pairing (fetch_and_filter ext M st))) as Hspec.
  fold st' in Hspec.
  destruct (count (self st)) as [c|] eqn:Hc.
  - destruct Hspec as (evs & Hext & Hall & Hr).
    assert (Hcalls : calls = fetch_calls evs).
    { unfold calls. by rewrite (extends_events _ _ _ Hext). }
    assert (Hmax : Forall (fun a => retmax a = 100) calls).
    { rewrite Hcalls. eapply Forall_impl; [exact Hall|]. by intros a [? _]. }
    split; [exact Hmax|].
    intros T out [= <-] Hout Hpos. rewrite Hout in Hr.
    destruct Hr as (Hoff & _ & _). rewrite <- Hcalls in Hoff.
    set (n := Z.min c M) in *.
    assert (Hq : 0 <= (n - 1) / 100) by (apply Z.div_pos; lia).
    assert (Hlen : length calls = Z.to_nat ((n - 1) / 100 + 1)).
    { rewrite <- (length_map retstart), Hoff, py_range_length.
      unfold range_len. destruct (Z.ltb_spec 0 n); [|lia].
      f_equal. f_equal. f_equal. lia. }
    destruct (last calls) as [a|] eqn:Hlast.
    + exists a. split; [done|].
      rewrite last_lookup in Hlast.
      assert (Ha : retmax a = 100).
      { rewrite Forall_forall in Hmax.
        eapply Hmax, list_elem_of_lookup_2, Hlast. }
      assert (Hs : retstart a = 100 * ((n - 1) / 100)).
      { assert (Hl : map retstart calls !! pred (length calls)
                     = Some (retstart a)).
        { by rewrite list_lookup_fmap, Hlast. }
        rewrite Hoff, py_range_lookup in Hl by lia.
        case_decide; [|done]. injection Hl as <-. rewrite Hlen. lia. }
      split; [exact Hs|]. split; [exact Ha|].
      rewrite Hs. pose proof (Z.div_mod (n - 1) 100 ltac:(lia)).
      pose proof (Z.mod_pos_bound (n - 1) 100 ltac:(lia)). lia.
    + apply last_None in Hlast. rewrite Hlast in Hlen. simpl in Hlen. lia.
  - destruct Hspec as [_ Hst]. unfold calls, events_since. rewrite Hst.
    rewrite drop_all. split; [constructor|]. intros T out [=].
Qed.

Lemma page_size_constant_witness :
  let ext := Demo.ext (Demo.numbered_db 250) None in
  let st := Demo.searched 0 1000000 250 in
  let calls := fetch_calls (events_since st (fetch_and_filter ext 250 st).2) in
  Forall (fun a => retmax a = 100) calls /\
  exists a, last calls = Some a /\ retstart a = 200 /\ retmax a = 100.
Proof.
  intros ext st calls.
  destruct (page_size_constant ext 250 st) as [Hall Hlast].
  split; [exact Hall|].
  destruct (fetch_and_filter ext 250 st).1 as [out|x] eqn:Hr;
    [|vm_compute in Hr; discriminate].
  destruct (Hlast 250 out eq_refl eq_refl ltac:(reflexivity))
    as (a & Ha & Hs & Hm & _).
  exists a. split; [exact Ha|]. split; [exact Hs|exact Hm].
Defined.

Lemma fetch_zero_count {S} (ext : Externals S) (M : Z) (st : State S) :
  count (self st) = Some 0 -> fetch_and_filter ext M st = (Ok [], st).
Proof.
  intros Hc. unfold fetch_and_filter, bind, getattr. rewrite Hc.
  rewrite py_range_empty by lia. reflexivity.
Qed.

(** C6. If the search stored [count = 0], [fetch_and_filter] returns the
    empty list, whatever [max_records] is, and issues no fetch call: the
    process and the object are left as they were. *)
Theorem zero_count_no_fetch {S} (ext : Externals S) (M : Z) (st : State S) :
  count (self st) = Some 0 ->
  fetch_and_filter ext M st = (Ok [], st) /\
  fetch_calls (events_since st (fetch_and_filter ext M st).2) = [].
Proof.
  intros Hc. pose proof (fetch_zero_count ext M st Hc) as Hrun.
  split; [exact Hrun|]. rewrite Hrun. unfold events_since; simpl.
  by rewrite drop_all.
Qed.

Lemma zero_count_no_fetch_witness :
  let ext := Demo.ext [] None in
  let st := Demo.searched 0 1000000 0 in
  fetch_and_filter ext 200 st = (Ok [], st) /\
  fetch_calls (events_since st (fetch_and_filter ext 200 st).2) = [].
Proof. intros ext st. apply (zero_count_no_fetch ext 200 st). reflexivity. Defined.

(** The same holds for the count a search of an empty result set stores. *)
Lemma search_zero_then_fetch {S} (ext : Externals S) taxid M (st st1 : State S) :
  search ext taxid st = (Ok 0, st1) ->
  fetch_and_filter ext M st1 = (Ok [], st1).
Proof.
  intros Hs. apply search_ok in Hs
    as (h & s' & res & e & k & cs & _ & _ & _ & _ & _ & _ & Hself & _).
  apply fetch_zero_count. by rewrite Hself.
Qed.

(** C7 (as the code has it). Called before any search has returned,
    [fetch_and_filter] does not proceed: reading [self.count] raises
    Python's [AttributeError]; no fetch call is issued and nothing changes.
    The script defines no [SequenceError]. *)
Theorem fetch_before_search_raises {S} (ext : Externals S) (M : Z)
  (st : State S) :
  no_search_yet ext st ->
  fetch_and_filter ext M st
  = (Raise (PyExn "AttributeError"
                  "'NCBIRetriever' object has no attribute 'count'"), st) /\
  fetch_calls (events_since st (fetch_and_filter ext M st).2) = [].
Proof.
  intros Hn. apply no_search_yet_count in Hn.
  assert (Hrun : fetch_and_filter ext M st
                 = (Raise (AttributeError "NCBIRetriever" "count"), st)).
  { unfold fetch_and_filter, bind, getattr. by rewrite Hn. }
  split; [exact Hrun|]. rewrite Hrun. unfold events_since; simpl.
  by rewrite drop_all.
Qed.

Lemma fetch_before_search_raises_witness :
  let ext := Demo.ext Demo.three_db None in
  let st := init "a@b.c" "k" 0 1000000 Demo.world0 in
  (fetch_and_filter ext 200 st).1
  = Raise (PyExn "AttributeError"
                 "'NCBIRetriever' object has no attribute 'count'").
Proof.
  intros ext st.
  destruct (fetch_before_search_raises ext 200 st) as [Hrun _].
  - apply nsy_init.
  - by rewrite Hrun.
Defined.

(** C7 as stated fails: on a freshly constructed retriever the exception
    raised is not [SequenceError: NoActiveSession]. *)
Lemma fetch_before_search_not_sequence_error :
  let ext := Demo.ext Demo.three_db None in
  let st := init "a@b.c" "k" 0 1000000 Demo.world0 in
  exists x, (fetch_and_filter ext 200 st).1 = Raise x /\
            exn_class x = "AttributeError" /\
            exn_class x <> "SequenceError" /\
            x <> PyExn "SequenceError" "NoActiveSession".
Proof.
  intros ext st. eexists. split; [reflexivity|]. simpl.
  split; [reflexivity|]. split; discriminate.
Qed.

(** ** Session reuse *)

(** Whatever the state, the calls of one [fetch_and_filter] run carry the
    [env] and [key] attributes of the object, which the run leaves alone. *)
Lemma fetch_uses_stored_session {S} (ext : Externals S) M (st st' : State S) r :
  fetch_and_filter ext M st = (r, st') ->
  self st' = self st /\
  Forall (fun a => env (self st) = Some (webenv a) /\
                   key (self st) = Some (query_key a))
         (fetch_calls (events_since st st')).
Proof.
  intros Hrun. apply fetch_and_filter_spec in Hrun.
  destruct (count (self st)) as [c|].
  - destruct Hrun as (evs & Hext & Hall & _).
    rewrite (extends_events _ _ _ Hext). split; [apply Hext|].
    eapply Forall_impl; [exact Hall|]. by intros a (_ & ? & ?).
  - destruct Hrun as [_ ->]. unfold events_since. rewrite drop_all.
    split; [done|constructor].
Qed.

(** C3. After a search that returned, every fetch call of a
    [fetch_and_filter] run carries the [WebEnv] and [QueryKey] of the
    search response, which are the values [search] stored in [self.env] and
    [self.key]; the run does not modify the object, so the values are the
    same on every page. *)
Theorem session_reused {S} (ext : Externals S) taxid M (st st1 st2 : State S)
  (c : Z) (r : result (list Row)) :
  search ext taxid st = (Ok c, st1) ->
  fetch_and_filter ext M st1 = (r, st2) ->
  exists h s' res e k,
    Entrez_esearch ext (search_args taxid) (server (world st)) = (Ok h, s') /\
    Entrez_read ext h = Ok res /\
    res !! "WebEnv" = Some e /\ res !! "QueryKey" = Some k /\
    env (self st1) = Some e /\ key (self st1) = Some k /\
    Forall (fun a => webenv a = e /\ query_key a = k)
           (fetch_calls (events_since st1 st2)) /\
    self st2 = self st1.
Proof.
  intros Hs Hrun.
  apply search_ok in Hs
    as (h & s' & res & e & k & cs & Hh & Hres & He & Hk & _ & _ & Hself & _).
  apply fetch_uses_stored_session in Hrun as [Hsame Hall].
  exists h, s', res, e, k. rewrite Hself in *. simpl in *.
  repeat (split; [done|]). split; [|done].
  eapply Forall_impl; [exact Hall|]. intros a [[= ->] [= ->]]. done.
Qed.

Lemma session_reused_witness :
  let ext := Demo.ext (Demo.numbered_db 250) None in
  let st := init "a@b.c" "k" 0 1000000 Demo.world0 in
  let st1 := (search ext "9606" st).2 in
  let st2 := (fetch_and_filter ext 200 st1).2 in
  length (fetch_calls (events_since st1 st2)) = 2%nat /\
  Forall (fun a => webenv a = "MCID_0001" /\ query_key a = "1")
         (fetch_calls (events_since st1 st2)).
Proof.
  intros ext st st1 st2. split; [reflexivity|].
  destruct (session_reused ext "9606" 200 st st1 st2 250
              (fetch_and_filter ext 200 st1).1)
    as (h & s' & res & e & k & Hh & Hres & He & Hk & _ & _ & Hall & _).
  - reflexivity.
  - apply surjective_pairing.
  - injection Hh as <- <-. injection Hres as <-.
    vm_compute in He, Hk. injection He as <-. injection Hk as <-.
    exact Hall.
Defined.

(** ** Filtering *)

(** C4. When [fetch_and_filter] returns, a record parsed from one of its
    pages has its triple [(id, length, description)] in the result exactly
    when [min_len <= length <= max_len]; every triple of the result comes
    from such a record, so none has a length outside the bounds; the result
    lists the retained triples in the order the records were fetched. *)
Theorem filter_correct {S} (ext : Externals S) M (st st' : State S)
  (out : list Row) :
  fetch_and_filter ext M st = (Ok out, st') ->
  let fetched := fetched_records (events_since st st') in
  let lo := min_len (self st) in
  let hi := max_len (self st) in
  (forall r, r ∈ fetched ->
             (triple r ∈ out <-> lo <= len (seq_ r) <= hi)) /\
  (forall t, t ∈ out ->
             lo <= Length t <= hi /\ exists r, r ∈ fetched /\ t = triple r) /\
  out = map triple (List.filter (in_range lo hi) fetched).
Proof.
  intros Hrun fetched lo hi. apply fetch_and_filter_spec in Hrun.
  destruct (count (self st)) as [c|]; [|by destruct Hrun].
  destruct Hrun as (evs & Hext & _ & _ & _ & Hout).
  assert (Hf : fetched = fetched_records evs).
  { unfold fetched. by rewrite (extends_events _ _ _ Hext). }
  rewrite <- Hf in Hout. fold lo hi in Hout.
  assert (Hin : forall t, t ∈ out <->
            exists r, r ∈ fetched /\ t = triple r /\ lo <= len (seq_ r) <= hi).
  { intros t. rewrite Hout, list_elem_of_In, in_map_iff. split.
    - intros (r & <- & Hr). apply filter_In in Hr as [Hr Hb].
      exists r. rewrite list_elem_of_In. unfold in_range in Hb. split; [done|].
      split; [done|lia].
    - intros (r & Hr & -> & Hb). exists r. split; [done|].
      apply filter_In. rewrite <- list_elem_of_In. split; [done|].
      unfold in_range. lia. }
  split; [|split; [|exact Hout]].
  - intros r Hr. rewrite Hin. split.
    + intros (r' & _ & Heq & Hb).
      assert (len (seq_ r) = len (seq_ r')) by (by injection Heq). lia.
    + intros Hb. by exists r.
  - intros t Ht. apply Hin in Ht as (r & Hr & -> & Hb). split; [exact Hb|].
    by exists r.
Qed.

Lemma filter_correct_witness :
  let ext := Demo.ext Demo.three_db None in
  let st := Demo.searched 100 1500 3 in
  exists out st',
    fetch_and_filter ext 200 st = (Ok out, st') /\
    map Length out = [800] /\
    out = map triple (List.filter (in_range 100 1500)
                        (fetched_records (events_since st st'))).
Proof.
  intros ext st. eexists _, _.
  assert (Hrun : fetch_and_filter ext 200 st
                 = ((fetch_and_filter ext 200 st).1,
                    (fetch_and_filter ext 200 st).2))
    by apply surjective_pairing.
  assert (Hok : (fetch_and_filter ext 200 st).1
                = Ok [("A3", 800, "record A3")]) by (vm_compute; reflexivity).
  rewrite Hok in Hrun. split; [exact Hrun|]. split; [reflexivity|].
  apply (filter_correct ext 200 st _ _ Hrun).
Defined.

(** ** Number of records fetched *)

Lemma fetched_records_length evs :
  length (fetched_records evs) = sum_list (page_sizes evs).
Proof.
  induction evs as [|[a|a|p] evs IH]; simpl; rewrite ?length_app; lia.
Qed.

Lemma sum_list_bound (b : nat) (l : list nat) :
  Forall (fun n => n <= b)%nat l -> (sum_list l <= b * length l)%nat.
Proof. induction 1; simpl; lia. Qed.

(** X10. What the loop does guarantee: with pages of at most 100 records,
    a run that returns has fetched at most 100 records per window, which is
    at most [min(count, M)] when that bound is a multiple of 100. *)
Lemma fetched_within_windows {S} (ext : Externals S) M T (st st' : State S) out :
  count (self st) = Some T ->
  fetch_and_filter ext M st = (Ok out, st') ->
  let evs := events_since st st' in
  Forall (fun n => n <= 100)%nat (page_sizes evs) ->
  (length (fetched_records evs)
   <= 100 * length (py_range 0 (Z.min T M) 100))%nat /\
  (0 <= Z.min T M -> Z.min T M mod 100 = 0 ->
   Z.of_nat (length (fetched_records evs)) <= Z.min T M).
Proof.
  intros Hc Hrun evs Hpages. apply fetch_and_filter_spec in Hrun.
  rewrite Hc in Hrun. destruct Hrun as (evs' & Hext & _ & _ & Hlen & _).
  assert (Hevs : evs = evs') by apply (extends_events _ _ _ Hext).
  rewrite <- Hevs in Hlen.
  assert (Hb : (length (fetched_records evs)
                <= 100 * length (py_range 0 (Z.min T M) 100))%nat).
  { rewrite fetched_records_length, <- Hlen. by apply sum_list_bound. }
  split; [exact Hb|]. intros Hn Hmod.
  rewrite py_range_length in Hb. unfold range_len in Hb.
  apply Z.mod_divide in Hmod as [q Hq]; [|lia].
  destruct (Z.ltb_spec 0 (Z.min T M)); [|simpl in Hb; lia].
  assert (Hdiv : (Z.min T M - 0 - 1) / 100 + 1 = q).
  { rewrite Hq. replace (q * 100 - 0 - 1) with (99 + (q - 1) * 100) by lia.
    rewrite Z.div_add by lia. change (99 / 100) with 0. lia. }
  rewrite Hdiv in Hb. lia.
Qed.

(** C2 fails on the code. With [count = 250], [max_records = 150] and a
    service that holds 250 records and returns exactly the page asked for
    (never more than [retmax] records), the run fetches 200 records, more
    than [min(250, 150) = 150], and returns all 200. *)
Theorem fetched_exceeds_limit :
  let ext := Demo.ext (Demo.numbered_db 250) None in
  let st := Demo.searched 0 1000000 250 in
  let run := fetch_and_filter ext 150 st in
  let evs := events_since st run.2 in
  Forall2 (fun a n => Z.of_nat n <= retmax a) (fetch_calls evs) (page_sizes evs) /\
  map retstart (fetch_calls evs) = [0; 100] /\
  page_sizes evs = [100; 100]%nat /\
  Z.of_nat (length (fetched_records evs)) = 200 /\
  Z.min 250 150 < Z.of_nat (length (fetched_records evs)) /\
  exists out, run.1 = Ok out /\ length out = 200%nat.
Proof.
  intros ext st run evs.
  assert (Hcalls : map (fun a => (retstart a, retmax a)) (fetch_calls evs)
                   = [(0, 100); (100, 100)]) by (vm_compute; reflexivity).
  assert (Hsizes : page_sizes evs = [100; 100]%nat) by (vm_compute; reflexivity).
  assert (Hlen : Z.of_nat (length (fetched_records evs)) = 200)
    by (vm_compute; reflexivity).
  split.
  { rewrite Hsizes. destruct (fetch_calls evs) as [|a [|b [|? ?]]];
      try discriminate. injection Hcalls as _ Ha _ Hb.
    repeat constructor; simpl; lia. }
  split.
  { destruct (fetch_calls evs) as [|a [|b [|? ?]]]; try discriminate.
    injection Hcalls as Ha _ Hb _. simpl. congruence. }
  split; [exact Hsizes|]. split; [exact Hlen|]. split; [rewrite Hlen; lia|].
  destruct run.1 as [out|x] eqn:Hr; [|vm_compute in Hr; discriminate].
  exists out. split; [reflexivity|].
  assert (Hl : match run.1 with Ok o => length o | Raise _ => 0%nat end
               = 200%nat) by (vm_compute; reflexivity).
  by rewrite Hr in Hl.
Qed.

(** ** [save_csv] *)

Section SaveCsv.

Context {S : Type} (ext : Externals S) (pd : Pandas).

#[local] Instance ge_trans : Transitive (fun a b : Z => b <= a).
Proof. intros a b c. lia. Qed.

#[local] Instance ge_antisymm : AntiSymm (=) (fun a b : Z => b <= a).
Proof. intros a b. lia. Qed.

(** The sort only reorders its rows. *)
Lemma insert_row_perm col asc x l :
  Permutation (x :: l) (insert_row pd col asc x l).
Proof.
  induction l as [|y l IH]; simpl; [done|].
  destruct (goes_first pd col asc x y); [done|].
  rewrite <- IH. apply perm_swap.
Qed.

Lemma sort_values_perm col asc l : Permutation l (sort_values pd col asc l).
Proof.
  induction l as [|x l IH]; simpl; [done|].
  rewrite <- insert_row_perm. by apply perm_skip.
Qed.

(** Whatever the rule on equal keys, a row placed first is not after the
    other in the order of the column. *)
Lemma goes_first_true col asc a b :
  goes_first pd col asc a b = true -> by_column col asc a b.
Proof.
  unfold goes_first, by_column.
  destruct (Z.eqb_spec (col a.2) (col b.2)) as [Heq|Hne].
  - intros _. destruct asc; lia.
  - destruct asc; intros H; apply Z.ltb_lt in H; lia.
Qed.

Lemma goes_first_false col asc a b :
  goes_first pd col asc a b = false -> by_column col asc b a.
Proof.
  unfold goes_first, by_column.
  destruct (Z.eqb_spec (col a.2) (col b.2)) as [Heq|Hne].
  - intros _. destruct asc; lia.
  - destruct asc; intros H; apply Z.ltb_ge in H; lia.
Qed.

Lemma insert_row_hd col asc x y l :
  by_column col asc y x -> HdRel (by_column col asc) y l ->
  HdRel (by_column col asc) y (insert_row pd col asc x l).
Proof.
  intros Hyx Hl. destruct l as [|z l]; simpl; [by constructor|].
  destruct (goes_first pd col asc x z); constructor; [done|].
  by inversion Hl.
Qed.

Lemma insert_row_sorted col asc x l :
  Sorted (by_column col asc) l ->
  Sorted (by_column col asc) (insert_row pd col asc x l).
Proof.
  induction 1 as [|y l Hl IH Hy]; simpl; [by repeat constructor|].
  destruct (goes_first pd col asc x y) eqn:Hg.
  - constructor; [by constructor|]. constructor. by apply goes_first_true.
  - constructor; [exact IH|].
    apply insert_row_hd; [by apply goes_first_false|exact Hy].
Qed.

Lemma sort_values_sorted col asc l :
  Sorted (by_column col asc) (sort_values pd col asc l).
Proof.
  induction l as [|x l IH]; simpl; [constructor|].
  by apply insert_row_sorted.
Qed.

(** What [save_csv] does when the file can be created: the frame it
    returns holds the rows of [data] in sorted order, and the file holds
    the same rows. *)
Lemma save_csv_run (data : list Row) (filename : string) (st : State S) :
  open_w ext filename = Ok tt ->
  let sorted := sort_values pd Length false (zip (seq 0 (length data)) data) in
  save_csv ext pd data filename st
  = (Ok (mkDataFrame ["Accession"; "Length"; "Description"] sorted),
     mkState (self st)
       (mkWorld (entrez (world st)) (server (world st)) (trace (world st))
          (stdout (world st))
          (<[filename := CsvFile ["Accession"; "Length"; "Description"]
                                 (map snd sorted)]> (fs (world st))))).
Proof.
  intros Hopen. unfold save_csv, to_csv, bind, write_file. simpl.
  rewrite Hopen. reflexivity.
Qed.

(** When the file cannot be created the exception of [to_csv] propagates:
    no frame is returned and nothing has changed. *)
Lemma save_csv_refused (data : list Row) (filename : string) (st : State S) e :
  open_w ext filename = Raise e ->
  save_csv ext pd data filename st = (Raise e, st).
Proof.
  intros Hopen. unfold save_csv, to_csv, bind, write_file. simpl.
  rewrite Hopen. reflexivity.
Qed.

Lemma save_csv_returns (data : list Row) (filename : string)
  (st st' : State S) df :
  save_csv ext pd data filename st = (Ok df, st') ->
  open_w ext filename = Ok tt.
Proof.
  destruct (open_w ext filename) as [[]|e] eqn:Hopen; [done|].
  by rewrite (save_csv_refused _ _ _ _ Hopen).
Qed.

Lemma sorted_rows_perm (data : list Row) :
  Permutation data
    (map snd (sort_values pd Length false (zip (seq 0 (length data)) data))).
Proof.
  rewrite <- (sort_values_perm Length false).
  change (map snd ?l) with (l.*2). rewrite snd_zip; [done|].
  rewrite length_seq. lia.
Qed.

Lemma sorted_rows_desc (data : list Row) :
  Sorted length_desc
    (map snd (sort_values pd Length false (zip (seq 0 (length data)) data))).
Proof.
  apply (Sorted_fmap snd (by_column Length false) length_desc).
  - intros a b Hab. exact Hab.
  - apply sort_values_sorted.
Qed.

(** C10. Whenever [save_csv] returns, the rows of the frame it returns,
    and of the file it has written, are a permutation of the input tuples:
    none dropped, duplicated or altered.  It returns whenever the file can
    be created; otherwise the exception of [to_csv] propagates and no
    table is produced. *)
Theorem save_csv_permutation (data : list Row) (filename : string)
  (st : State S) :
  (forall df st',
      save_csv ext pd data filename st = (Ok df, st') ->
      columns df = ["Accession"; "Length"; "Description"] /\
      Permutation data (map snd (df_rows df)) /\
      Permutation data (persisted_rows (world st') filename) /\
      length (persisted_rows (world st') filename) = length data) /\
  (open_w ext filename = Ok tt ->
   exists df st', save_csv ext pd data filename st = (Ok df, st')) /\
  (forall e, open_w ext filename = Raise e ->
             save_csv ext pd data filename st = (Raise e, st)).
Proof.
  split; [|split].
  - intros df st' Hrun. pose proof (save_csv_returns _ _ _ _ _ Hrun) as Hopen.
    rewrite (save_csv_run data filename st Hopen) in Hrun.
    injection Hrun as <- <-. simpl.
    unfold persisted_rows; simpl. rewrite lookup_insert_eq.
    split; [reflexivity|]. split; [apply sorted_rows_perm|].
    split; [apply sorted_rows_perm|].
    symmetry. apply Permutation_length, sorted_rows_perm.
  - intros Hopen. eexists _, _. by apply save_csv_run.
  - intros e Hopen. by apply save_csv_refused.
Qed.

End SaveCsv.

Lemma save_csv_permutation_witness :
  let ext := Demo.ext [] None in
  let st := Demo.searched 0 1000000 4 in
  exists df st',
    save_csv ext Demo.pandas_a Demo.rows4 "out.csv" st = (Ok df, st') /\
    Permutation Demo.rows4 (persisted_rows (world st') "out.csv").
Proof.
  intros ext st.
  destruct (save_csv_permutation ext Demo.pandas_a Demo.rows4 "out.csv" st)
    as (Hperm & Hret & _).
  destruct (Hret eq_refl) as (df & st' & Hrun).
  exists df, st'. split; [exact Hrun|]. apply (Hperm df st' Hrun).
Defined.

(** ** [main] *)

Section MainFacts.

Context {S : Type} (ext : Externals S) (pd : Pandas).

Lemma bind_ok {A B} (m : M S A) (k : A -> M S B) st a st' :
  m st = (Ok a, st') -> bind m k st = k a st'.
Proof. unfold bind. by intros ->. Qed.

Lemma bind_raise {A B} (m : M S A) (k : A -> M S B) st x st' :
  m st = (Raise x, st') -> bind m k st = (Raise x, st').
Proof. unfold bind. by intros ->. Qed.

Lemma bind_print {B} s (k : unit -> M S B) st :
  bind (print s) k st = k tt (print s st).2.
Proof. reflexivity. Qed.

Lemma plot_lengths_run (df : DataFrame) (output : string) (st : State S) :
  open_w ext output = Ok tt ->
  plot_lengths ext df output st
  = (Ok tt,
     mkState (self st)
       (mkWorld (entrez (world st)) (server (world st)) (trace (world st))
          (stdout (world st))
          (<[output := PngFile (figure_of df)]> (fs (world st))))).
Proof. intros Hopen. unfold plot_lengths, write_file. by rewrite Hopen. Qed.

Lemma plot_lengths_refused (df : DataFrame) (output : string) (st : State S) e :
  open_w ext output = Raise e ->
  plot_lengths ext df output st = (Raise e, st).
Proof. intros Hopen. unfold plot_lengths, write_file. by rewrite Hopen. Qed.

(** Where [main] stands once [fetch_and_filter] has returned [data]. *)
Lemma main_body_after_fetch (args : Args) (w : World S) c st1 data st2 :
  let taxid := a_taxid args in
  let st0 := (print (searching_msg taxid)
                (init (a_email args) (a_api_key args)
                      (a_min_len args) (a_max_len args) w)).2 in
  search ext taxid st0 = (Ok c, st1) ->
  c <> 0 ->
  fetch_and_filter ext (a_limit args)
    (print "Fetching & filtering..." st1).2 = (Ok data, st2) ->
  main_body ext pd args
    (init (a_email args) (a_api_key args) (a_min_len args) (a_max_len args) w)
  = match data with
    | [] => print "No records within length range." st2
    | _ :: _ =>
        bind (save_csv ext pd data (csv_name taxid))
             (fun df =>
                plot_lengths ext df (png_name taxid) ;;;
                print ("Saved CSV: " +:+ csv_name taxid) ;;;
                print ("Saved plot: " +:+ png_name taxid))
             st2
    end.
Proof.
  intros taxid st0 Hs Hc Hrun. unfold main_body. rewrite bind_print.
  fold taxid (searching_msg taxid). fold st0.
  rewrite (bind_ok _ _ _ _ _ Hs).
  destruct (Z.eqb_spec c 0) as [|_]; [done|].
  rewrite bind_print, (bind_ok _ _ _ _ _ Hrun). by destruct data.
Qed.

(** What the search and the fetches leave of standard output and of the
    files when [main] reaches the end of [fetch_and_filter]. *)
Lemma main_frame_after_fetch (args : Args) (w : World S) c st1 r st2 :
  let taxid := a_taxid args in
  let st0 := (print (searching_msg taxid)
                (init (a_email args) (a_api_key args)
                      (a_min_len args) (a_max_len args) w)).2 in
  search ext taxid st0 = (Ok c, st1) ->
  fetch_and_filter ext (a_limit args)
    (print "Fetching & filtering..." st1).2 = (r, st2) ->
  stdout (world st2)
  = stdout w ++ [searching_msg taxid; "Fetching & filtering..."] /\
  fs (world st2) = fs w.
Proof.
  intros taxid st0 Hs Hrun.
  apply search_ok in Hs
    as (h & s' & res & e & k & cs & _ & _ & _ & _ & _ & _ & _
        & (_ & Ho & Hf) & _ & _).
  apply fetch_and_filter_spec in Hrun.
  destruct (count (self (print "Fetching & filtering..." st1).2)).
  - destruct Hrun as (evs & (_ & (_ & Ho2 & Hf2) & _) & _).
    simpl in Ho2, Hf2. rewrite Ho2, Hf2, Ho, Hf. simpl.
    by rewrite <- !app_assoc.
  - destruct Hrun as [_ ->]. simpl. rewrite Ho, Hf. simpl.
    by rewrite <- !app_assoc.
Qed.

(** C8 (as the code has it). A run of the script whose search returns [0]
    prints "No records found." and exits with status 0 without fetching or
    writing anything; a run whose search returns a non-zero count and whose
    [fetch_and_filter] returns no record prints
    "No records within length range." and exits with status 0 without
    writing anything; a run whose [fetch_and_filter] returns records, and in
    which both output files can be created, writes
    [taxid_{taxid}_filtered.csv] and [taxid_{taxid}_plot.png], prints both
    names and exits with status 0. *)
Theorem main_exit_behaviour (args : Args) (w : World S) :
  let taxid := a_taxid args in
  let st0 := (print (searching_msg taxid)
                (init (a_email args) (a_api_key args)
                      (a_min_len args) (a_max_len args) w)).2 in
  (forall st1,
      search ext taxid st0 = (Ok 0, st1) ->
      exists w', run_script ext pd args w = (0, w') /\
        stdout w' = stdout w ++ [searching_msg taxid; "No records found."] /\
        fs w' = fs w /\
        fetch_calls (trace w') = fetch_calls (trace w)) /\
  (forall c st1 st2,
      search ext taxid st0 = (Ok c, st1) ->
      c <> 0 ->
      fetch_and_filter ext (a_limit args)
        (print "Fetching & filtering..." st1).2 = (Ok [], st2) ->
      exists w', run_script ext pd args w = (0, w') /\
        stdout w' = stdout w ++ [searching_msg taxid;
                                 "Fetching & filtering...";
                                 "No records within length range."] /\
        fs w' = fs w) /\
  (forall c st1 data st2,
      search ext taxid st0 = (Ok c, st1) ->
      c <> 0 ->
      fetch_and_filter ext (a_limit args)
        (print "Fetching & filtering..." st1).2 = (Ok data, st2) ->
      data <> [] ->
      open_w ext (csv_name taxid) = Ok tt ->
      open_w ext (png_name taxid) = Ok tt ->
      exists w', run_script ext pd args w = (0, w') /\
        stdout w' = stdout w ++ [searching_msg taxid;
                                 "Fetching & filtering...";
                                 "Saved CSV: " +:+ csv_name taxid;
                                 "Saved plot: " +:+ png_name taxid] /\
        exists df st3,
          save_csv ext pd data (csv_name taxid) st2 = (Ok df, st3) /\
          fs w' = <[png_name taxid := PngFile (figure_of df)]>
                    (<[csv_name taxid :=
                         CsvFile ["Accession"; "Length"; "Description"]
                                 (map snd (df_rows df))]> (fs w))).
Proof.
  intros taxid st0. split; [|split].
  - intros st1 Hs. eexists. unfold run_script, main, main_body.
    rewrite bind_print. fold taxid (searching_msg taxid). fold st0.
    rewrite (bind_ok _ _ _ _ _ Hs). simpl.
    split; [reflexivity|].
    apply search_ok in Hs
      as (h & s' & res & e & k & cs & _ & _ & _ & _ & _ & _ & _
          & (_ & Ho & Hf) & _ & Ht).
    rewrite Ho, Hf, Ht. simpl. rewrite <- app_assoc.
    split; [reflexivity|]. split; [reflexivity|].
    by rewrite fetch_calls_app, app_nil_r.
  - intros c st1 st2 Hs Hc Hrun.
    pose proof (main_body_after_fetch args w c st1 [] st2 Hs Hc Hrun) as Hmain.
    pose proof (main_frame_after_fetch args w c st1 _ st2 Hs Hrun) as [Ho Hf].
    eexists. unfold run_script, main. rewrite Hmain. simpl.
    split; [reflexivity|]. rewrite Ho, Hf. by rewrite <- !app_assoc.
  - intros c st1 data st2 Hs Hc Hrun Hne Hcsv Hpng.
    pose proof (main_body_after_fetch args w c st1 data st2 Hs Hc Hrun)
      as Hmain.
    pose proof (main_frame_after_fetch args w c st1 _ st2 Hs Hrun) as [Ho Hf].
    destruct data as [|t data]; [done|].
    eexists. unfold run_script, main. rewrite Hmain.
    rewrite (bind_ok _ _ _ _ _ (save_csv_run ext pd (t :: data) _ st2 Hcsv)).
    rewrite (bind_ok _ _ _ _ _ (plot_lengths_run _ _ _ Hpng)).
    simpl. split; [reflexivity|].
    rewrite Ho, Hf. rewrite <- !app_assoc.
    split; [reflexivity|]. eexists _, _.
    split; [by apply save_csv_run|reflexivity].
Qed.

(** X12. An exception raised by the search reaches the top level: the
    script exits with status 1, in the state the search left, and has
    written no file. *)
Lemma main_search_raises (args : Args) (w : World S) x st1 :
  let st0 := (print (searching_msg (a_taxid args))
                (init (a_email args) (a_api_key args)
                      (a_min_len args) (a_max_len args) w)).2 in
  search ext (a_taxid args) st0 = (Raise x, st1) ->
  run_script ext pd args w = (1, world st1) /\ fs (world st1) = fs w.
Proof.
  intros st0 Hs. unfold run_script, main, main_body. rewrite bind_print.
  fold (searching_msg (a_taxid args)). fold st0.
  rewrite (bind_raise _ _ _ _ _ Hs). split; [reflexivity|].
  apply search_raise in Hs as [_ (_ & _ & ->)]. reflexivity.
Qed.

(** X13. An exception raised by a fetch, after a search that found
    records, reaches the top level: the script exits with status 1 and has
    written no file, whatever pages had already been fetched. *)
Lemma main_fetch_raises (args : Args) (w : World S) c st1 x st2 :
  let st0 := (print (searching_msg (a_taxid args))
                (init (a_email args) (a_api_key args)
                      (a_min_len args) (a_max_len args) w)).2 in
  search ext (a_taxid args) st0 = (Ok c, st1) ->
  c <> 0 ->
  fetch_and_filter ext (a_limit args)
    (print "Fetching & filtering..." st1).2 = (Raise x, st2) ->
  run_script ext pd args w = (1, world st2) /\ fs (world st2) = fs w.
Proof.
  intros st0 Hs Hc Hrun. unfold run_script, main, main_body.
  rewrite bind_print. fold (searching_msg (a_taxid args)). fold st0.
  rewrite (bind_ok _ _ _ _ _ Hs).
  destruct (Z.eqb_spec c 0) as [|_]; [done|].
  rewrite bind_print, (bind_raise _ _ _ _ _ Hrun). split; [reflexivity|].
  apply search_ok in Hs
    as (h & s' & res & e & k & cs & _ & _ & _ & _ & _ & _ & _
        & (_ & _ & Hf) & _ & _).
  apply fetch_and_filter_spec in Hrun.
  destruct (count (self (print "Fetching & filtering..." st1).2)).
  - destruct Hrun as (evs & (_ & (_ & _ & Hf2) & _) & _).
    rewrite Hf2. simpl. by rewrite Hf.
  - destruct Hrun as [_ ->]. simpl. by rewrite Hf.
Qed.

End MainFacts.

Lemma main_exit_behaviour_witness :
  (exists w',
      run_script (Demo.ext [] None) Demo.pandas_a (Demo.args 100 1500)
                 Demo.world0 = (0, w') /\
      stdout w' = ["Searching TaxID 9606..."; "No records found."] /\
      fs w' = ∅) /\
  (exists w',
      run_script (Demo.ext Demo.three_db None) Demo.pandas_a
                 (Demo.args 3000 4000) Demo.world0 = (0, w') /\
      stdout w' = ["Searching TaxID 9606..."; "Fetching & filtering...";
                   "No records within length range."] /\
      fs w' = ∅) /\
  (exists w',
      run_script (Demo.ext Demo.three_db None) Demo.pandas_a
                 (Demo.args 100 1500) Demo.world0 = (0, w') /\
      stdout w' = ["Searching TaxID 9606..."; "Fetching & filtering...";
                   "Saved CSV: taxid_9606_filtered.csv";
                   "Saved plot: taxid_9606_plot.png"] /\
      persisted_rows w' "taxid_9606_filtered.csv"
      = [("A3", 800, "record A3")] /\
      is_Some (fs w' !! "taxid_9606_plot.png")).
Proof.
  split; [|split].
  - destruct (main_exit_behaviour (Demo.ext [] None) Demo.pandas_a
                (Demo.args 100 1500) Demo.world0) as (H0 & _ & _).
    destruct (H0 _ eq_refl) as (w' & Hrun & Hout & Hfs & _).
    exists w'. split; [exact Hrun|]. split; [exact Hout|exact Hfs].
  - destruct (main_exit_behaviour (Demo.ext Demo.three_db None) Demo.pandas_a
                (Demo.args 3000 4000) Demo.world0) as (_ & H1 & _).
    destruct (H1 3 _ _ eq_refl ltac:(discriminate) eq_refl)
      as (w' & Hrun & Hout & Hfs).
    exists w'. split; [exact Hrun|]. split; [exact Hout|exact Hfs].
  - destruct (main_exit_behaviour (Demo.ext Demo.three_db None) Demo.pandas_a
                (Demo.args 100 1500) Demo.world0) as (_ & _ & H2).
    set (ext := Demo.ext Demo.three_db None) in *.
    set (st0 := (print (searching_msg "9606")
                   (init "a@b.c" "k" 100 1500 Demo.world0)).2).
    set (st1 := (search ext "9606" st0).2).
    set (st2 := (fetch_and_filter ext 200
                   (print "Fetching & filtering..." st1).2).2).
    assert (Hs : search ext "9606" st0 = (Ok 3, st1))
      by (vm_compute; reflexivity).
    assert (Hrun : fetch_and_filter ext 200
                     (print "Fetching & filtering..." st1).2
                   = (Ok [("A3", 800, "record A3")], st2))
      by (vm_compute; reflexivity).
    destruct (H2 3 st1 [("A3", 800, "record A3")] st2 Hs
                ltac:(discriminate) Hrun ltac:(discriminate)
                eq_refl eq_refl)
      as (w' & Hw & Hout & df & st3 & Hdf & Hfs).
    exists w'. split; [exact Hw|]. split; [exact Hout|].
    rewrite (save_csv_run ext Demo.pandas_a [("A3", 800, "record A3")]
               (csv_name (a_taxid (Demo.args 100 1500))) st2 eq_refl) in Hdf.
    injection Hdf as <- _. unfold persisted_rows. rewrite Hfs.
    rewrite lookup_insert_ne by (vm_compute; discriminate).
    rewrite lookup_insert_eq.
    split; [reflexivity|]. rewrite lookup_insert_eq. by eexists.
Defined.

(** C8 as stated fails: a run can find records, keep some of them and
    still write nothing.  With [--taxid 9/6] the output names contain a
    directory that does not exist; the search returns 3, one record passes
    the filter, [to_csv] raises, and the script exits with status 1 having
    written no file and printed no file name. *)
Lemma main_unwritable_output :
  let ext := Demo.ext Demo.three_db None in
  let args := mkArgs "a@b.c" "k" "9/6" 100 1500 200 in
  let st0 := (print (searching_msg "9/6")
                (init "a@b.c" "k" 100 1500 Demo.world0)).2 in
  let st1 := (search ext "9/6" st0).2 in
  let res := run_script ext Demo.pandas_a args Demo.world0 in
  (search ext "9/6" st0).1 = Ok 3 /\
  (fetch_and_filter ext 200 (print "Fetching & filtering..." st1).2).1
  = Ok [("A3", 800, "record A3")] /\
  res.1 = 1 /\
  fs res.2 = ∅ /\
  stdout res.2 = ["Searching TaxID 9/6..."; "Fetching & filtering..."].
Proof.
  intros ext args st0 st1 res.
  repeat split; vm_compute; reflexivity.
Qed.

(** A transport failure on the second page aborts the whole retrieval: the
    exception propagates, no partial result is returned and the third
    window is never requested. *)
Example fetch_aborts_on_failure :
  let ext := Demo.ext (Demo.numbered_db 250) (Some 1%nat) in
  let st := Demo.searched 0 1000000 250 in
  let run := fetch_and_filter ext 250 st in
  run.1 = Raise (PyExn "URLError" "connection reset") /\
  map retstart (fetch_calls (events_since st run.2)) = [0; 100].
Proof. split; vm_compute; reflexivity. Qed.

(** * Further properties of the retriever *)

(** ** [search]: what it stores, and what a failure leaves behind *)

(** Whatever the outcome, a search issues exactly one [esearch] call and
    touches neither standard output, the files nor the two bounds. *)
Lemma search_frame {S} (ext : Externals S) taxid (st : State S) r st1 :
  search ext taxid st = (r, st1) ->
  same_process (world st) (world st1) /\
  trace (world st1) = trace (world st) ++ [EvSearch (search_args taxid)] /\
  min_len (self st1) = min_len (self st) /\
  max_len (self st1) = max_len (self st).
Proof.
  unfold search, bind, log, modify_world, remote, lift, getitem, get_self,
    put_self, getattr, ret, raise.
  fold (search_args taxid). destruct st as [slf w]; simpl.
  unfold same_process.
  destruct (Entrez_esearch ext _ (server w)) as [[h|y] s'] eqn:Hs; simpl;
    [|by intros [= <- <-]].
  destruct (Entrez_read ext h) as [res|y] eqn:Hr; simpl;
    [|by intros [= <- <-]].
  destruct (res !! "WebEnv") as [e|] eqn:He; simpl; [|by intros [= <- <-]].
  destruct (res !! "QueryKey") as [k|] eqn:Hk; simpl; [|by intros [= <- <-]].
  destruct (res !! "Count") as [c_str|] eqn:Hc; simpl; [|by intros [= <- <-]].
  destruct (py_int ext c_str) as [c'|y] eqn:Hi; simpl; by intros [= <- <-].
Qed.

(** X1. A search that returns [c] has issued exactly one [esearch] call, on
    database "nucleotide" with term "txid{taxid}[Organism]", history on
    and [retmax = 0]; [c] is [int] of the response's [Count], and the object
    afterwards holds the response's [WebEnv] and [QueryKey] and the count
    [c], with its two length bounds unchanged.  Nothing is printed or
    written. *)
Theorem search_stores_session {S} (ext : Externals S) taxid
  (st st1 : State S) (c : Z) :
  search ext taxid st = (Ok c, st1) ->
  exists h s' res e k c_str,
    Entrez_esearch ext
      (mkESearch "nucleotide" ("txid" +:+ taxid +:+ "[Organism]") "y" 0)
      (server (world st)) = (Ok h, s') /\
    Entrez_read ext h = Ok res /\
    res !! "WebEnv" = Some e /\ res !! "QueryKey" = Some k /\
    res !! "Count" = Some c_str /\ py_int ext c_str = Ok c /\
    self st1 = mkRetriever (min_len (self st)) (max_len (self st))
                           (Some e) (Some k) (Some c) /\
    events_since st st1
    = [EvSearch (mkESearch "nucleotide" ("txid" +:+ taxid +:+ "[Organism]")
                           "y" 0)] /\
    stdout (world st1) = stdout (world st) /\
    fs (world st1) = fs (world st).
Proof.
  intros Hs. apply search_ok in Hs
    as (h & s' & res & e & k & cs & Hh & Hres & He & Hk & Hc & Hi & Hself
        & (_ & Ho & Hf) & _ & Ht).
  exists h, s', res, e, k, cs. repeat (split; [done|]).
  split; [|done]. unfold events_since. rewrite Ht. by rewrite drop_app_length.
Qed.

Lemma search_stores_session_witness :
  let ext := Demo.ext Demo.three_db None in
  let st := init "a@b.c" "k" 100 1500 Demo.world0 in
  self (search ext "9606" st).2
  = mkRetriever 100 1500 (Some "MCID_0001") (Some "1") (Some 3).
Proof.
  intros ext st.
  destruct (search_stores_session ext "9606" st (search ext "9606" st).2 3
              eq_refl)
    as (h & s' & res & e & k & cs & Hh & Hres & He & Hk & _ & _ & Hself & _).
  injection Hh as <- <-. injection Hres as <-. vm_compute in He, Hk.
  injection He as <-. injection Hk as <-. exact Hself.
Defined.

(** X2. A search that raises, for whatever reason, leaves every attribute
    of the object as it was: the three session attributes are assigned
    together, after the response has been read and its count converted.
    The [esearch] call has still been issued, once; nothing is printed or
    written. *)
Theorem search_failure_keeps_object {S} (ext : Externals S) taxid
  (st st1 : State S) (x : exn) :
  search ext taxid st = (Raise x, st1) ->
  self st1 = self st /\
  events_since st st1 = [EvSearch (search_args taxid)] /\
  stdout (world st1) = stdout (world st) /\
  fs (world st1) = fs (world st).
Proof.
  intros Hs. pose proof (search_frame _ _ _ _ _ Hs) as ((_ & Ho & Hf) & Ht & _).
  apply search_raise in Hs as [Hself _].
  split; [done|]. split; [|done].
  unfold events_since. rewrite Ht. by rewrite drop_app_length.
Qed.

Lemma search_failure_keeps_object_witness :
  let ext := Faulty.ext Faulty.response_bad_count None Demo.three_db in
  let st := Demo.searched 0 1000000 250 in
  (search ext "9606" st).1
  = Raise (PyExn "ValueError" "invalid literal for int()") /\
  self (search ext "9606" st).2 = self st.
Proof.
  intros ext st. split; [reflexivity|].
  apply (search_failure_keeps_object ext "9606" st (search ext "9606" st).2
           (PyExn "ValueError" "invalid literal for int()") eq_refl).
Defined.

(** X3. When the response that was read lacks a field, [search] raises
    [KeyError] for the first missing one among [WebEnv], [QueryKey] and
    [Count], in that order, and the object is not modified. *)
Theorem search_missing_field {S} (ext : Externals S) taxid (st : State S)
  h s' res :
  Entrez_esearch ext (search_args taxid) (server (world st)) = (Ok h, s') ->
  Entrez_read ext h = Ok res ->
  (res !! "WebEnv" = None \/ res !! "QueryKey" = None \/ res !! "Count" = None) ->
  let missing :=
    if decide (res !! "WebEnv" = None) then "WebEnv"
    else if decide (res !! "QueryKey" = None) then "QueryKey"
    else "Count" in
  (search ext taxid st).1 = Raise (PyExn "KeyError" ("'" +:+ missing +:+ "'")) /\
  self (search ext taxid st).2 = self st.
Proof.
  intros Hh Hres Hmiss missing. unfold missing.
  unfold search, bind, log, modify_world, remote, lift, getitem, get_self,
    put_self, getattr, ret, raise.
  fold (search_args taxid). destruct st as [slf w]; simpl in *.
  rewrite Hh; simpl. rewrite Hres; simpl.
  destruct (res !! "WebEnv") as [e|] eqn:He; simpl;
    [|by repeat case_decide].
  destruct (res !! "QueryKey") as [k|] eqn:Hk; simpl;
    [|by repeat case_decide].
  destruct (res !! "Count") as [c|] eqn:Hc; simpl;
    [|by repeat case_decide].
  by destruct Hmiss as [?|[?|?]].
Qed.

Lemma search_missing_field_witness :
  let ext := Faulty.ext Faulty.response_no_count None Demo.three_db in
  let st := init "a@b.c" "k" 0 1000000 Demo.world0 in
  (search ext "9606" st).1 = Raise (PyExn "KeyError" "'Count'") /\
  self (search ext "9606" st).2 = self st.
Proof.
  intros ext st.
  apply (search_missing_field ext "9606" st Faulty.response_no_count 1%nat
           Faulty.response_no_count eq_refl eq_refl).
  right. right. reflexivity.
Defined.

(** ** [fetch_and_filter]: budget, frame and repeated use *)

Lemma search_calls_app evs1 evs2 :
  search_calls (evs1 ++ evs2) = search_calls evs1 ++ search_calls evs2.
Proof.
  induction evs1 as [|[a|a|p] evs1 IH]; simpl; by rewrite ?IH.
Qed.

(** The window loop issues no search call. *)
Lemma for_each_no_search {S} (ext : Externals S) step starts records
  (st : State S) r st' :
  for_each starts (fetch_page ext step) records st = (r, st') ->
  exists evs, extends st st' evs /\ search_calls evs = [].
Proof.
  revert records st. induction starts as [|start rest IH]; intros records st.
  - intros [= <- <-]. exists []. split; [apply extends_refl|done].
  - simpl. unfold bind at 1.
    destruct (fetch_page ext step start records st) as [[out1|x] st1] eqn:H1.
    + apply fetch_page_spec in H1 as (evs1 & Hext1 & a & page & -> & _).
      intros H2. apply IH in H2 as (evs2 & Hext2 & Hno).
      exists ([EvFetch a; EvParsed page] ++ evs2). split.
      * eapply extends_trans; eassumption.
      * exact Hno.
    + intros [= <- <-].
      apply fetch_page_spec in H1 as (evs1 & Hext1 & Hr).
      exists evs1. split; [done|].
      by destruct Hr as [->|(a & -> & _)].
Qed.

Lemma fetch_and_filter_no_search {S} (ext : Externals S) (M : Z)
  (st : State S) r st' :
  fetch_and_filter ext M st = (r, st') ->
  exists evs, extends st st' evs /\ search_calls evs = [].
Proof.
  unfold fetch_and_filter, bind at 1, getattr.
  destruct (count (self st)) as [c|].
  - apply for_each_no_search.
  - intros [= <- <-]. exists []. split; [apply extends_refl|done].
Qed.

(** X4. [fetch_and_filter] is a pure reader of the object and of the
    process: whatever its outcome, it leaves every attribute of the
    retriever, standard output, the files and the Entrez settings as they
    were; it only extends the history of remote calls, and with no search
    call. *)
Theorem fetch_and_filter_frame {S} (ext : Externals S) (M : Z) (st : State S) :
  let st' := (fetch_and_filter ext M st).2 in
  self st' = self st /\
  stdout (world st') = stdout (world st) /\
  fs (world st') = fs (world st) /\
  entrez (world st') = entrez (world st) /\
  trace (world st') = trace (world st) ++ events_since st st' /\
  search_calls (events_since st st') = [].
Proof.
  intros st'. unfold st'.
  destruct (fetch_and_filter ext M st) as [r st1] eqn:Hrun. simpl.
  apply fetch_and_filter_no_search in Hrun as (evs & Hext & Hno).
  rewrite (extends_events _ _ _ Hext).
  destruct Hext as (Hs & (He & Ho & Hf) & Ht). done.
Qed.

Lemma fetch_nonpositive_budget_aux {S} (ext : Externals S) (M T : Z)
  (st : State S) :
  count (self st) = Some T ->
  Z.min T M <= 0 ->
  fetch_and_filter ext M st = (Ok [], st).
Proof.
  intros Hc Hle. unfold fetch_and_filter, bind, getattr. rewrite Hc.
  rewrite py_range_empty by lia. reflexivity.
Qed.

(** X5. With a budget [min(count, max_records)] that is zero or negative
    (a non-positive [max_records], or a non-positive count),
    [fetch_and_filter] returns the empty list without issuing any fetch
    call and without changing anything. *)
Theorem fetch_nonpositive_budget {S} (ext : Externals S) (M T : Z)
  (st : State S) :
  count (self st) = Some T ->
  Z.min T M <= 0 ->
  fetch_and_filter ext M st = (Ok [], st) /\
  fetch_calls (events_since st (fetch_and_filter ext M st).2) = [].
Proof.
  intros Hc Hle. pose proof (fetch_nonpositive_budget_aux ext M T st Hc Hle)
    as Hrun.
  split; [exact Hrun|]. rewrite Hrun. unfold events_since; simpl.
  by rewrite drop_all.
Qed.

Lemma fetch_nonpositive_budget_witness :
  let ext := Demo.ext (Demo.numbered_db 250) None in
  let st := Demo.searched 0 1000000 250 in
  fetch_and_filter ext (-5) st = (Ok [], st).
Proof.
  intros ext st.
  apply (fetch_nonpositive_budget ext (-5) 250 st); [reflexivity|].
  vm_compute. discriminate.
Defined.

(** X6. A [fetch_and_filter] run that returns has issued exactly
    [ceil(min(count, max_records) / 100)] fetch calls (none when the
    budget is not positive) and has parsed as many pages. *)
Theorem fetch_call_count {S} (ext : Externals S) (M T : Z)
  (st st' : State S) (out : list Row) :
  count (self st) = Some T ->
  fetch_and_filter ext M st = (Ok out, st') ->
  let evs := events_since st st' in
  Z.of_nat (length (fetch_calls evs)) = Z.max 0 ((Z.min T M + 99) / 100) /\
  length (page_sizes evs) = length (fetch_calls evs).
Proof.
  intros Hc Hrun evs. apply fetch_and_filter_spec in Hrun.
  rewrite Hc in Hrun. destruct Hrun as (evs' & Hext & _ & Hoff & Hlen & _).
  assert (Hevs : evs = evs') by apply (extends_events _ _ _ Hext).
  rewrite <- Hevs in Hoff, Hlen.
  assert (Hn : length (fetch_calls evs)
               = length (py_range 0 (Z.min T M) 100)).
  { by rewrite <- Hoff, length_map. }
  split; [|by rewrite Hlen, Hn].
  rewrite Hn, py_range_length. unfold range_len.
  set (n := Z.min T M).
  destruct (Z.ltb_spec 0 n) as [Hpos|Hle].
  - assert (0 <= (n - 0 - 1) / 100) by (apply Z.div_pos; lia).
    rewrite Z2Nat.id by lia.
    replace (n + 99) with (n - 0 - 1 + 1 * 100) by lia.
    rewrite Z.div_add by lia. lia.
  - simpl. assert ((n + 99) / 100 <= 0); [|lia].
    assert ((n + 99) / 100 < 1); [|lia].
    apply Z.div_lt_upper_bound; lia.
Qed.

Lemma fetch_call_count_witness :
  let ext := Demo.ext (Demo.numbered_db 250) None in
  let st := Demo.searched 0 1000000 250 in
  length (fetch_calls (events_since st (fetch_and_filter ext 1000 st).2))
  = 3%nat.
Proof.
  intros ext st.
  destruct (fetch_and_filter ext 1000 st) as [[out|x] st'] eqn:Hrun;
    [|vm_compute in Hrun; discriminate].
  destruct (fetch_call_count ext 1000 250 st st' out eq_refl Hrun) as [Hn _].
  simpl. change (Z.max 0 ((Z.min 250 1000 + 99) / 100)) with 3 in Hn. lia.
Defined.

(** X7. When the lower bound exceeds the upper bound no record can pass:
    a run that returns gives the empty list, although every window of the
    budget has been fetched. *)
Theorem inverted_bounds_empty {S} (ext : Externals S) (M T : Z)
  (st st' : State S) (out : list Row) :
  count (self st) = Some T ->
  max_len (self st) < min_len (self st) ->
  fetch_and_filter ext M st = (Ok out, st') ->
  out = [] /\
  map retstart (fetch_calls (events_since st st'))
  = py_range 0 (Z.min T M) 100.
Proof.
  intros Hc Hinv Hrun. apply fetch_and_filter_spec in Hrun.
  rewrite Hc in Hrun. destruct Hrun as (evs & Hext & _ & Hoff & _ & ->).
  rewrite (extends_events _ _ _ Hext). split; [|exact Hoff].
  induction (fetched_records evs) as [|r l IH]; [reflexivity|]. simpl.
  unfold in_range at 1.
  destruct (Z.leb_spec (min_len (self st)) (len (seq_ r)));
    destruct (Z.leb_spec (len (seq_ r)) (max_len (self st)));
    simpl; try exact IH. lia.
Qed.

Lemma inverted_bounds_empty_witness :
  let ext := Demo.ext Demo.three_db None in
  let st := Demo.searched 1500 100 3 in
  (fetch_and_filter ext 200 st).1 = Ok [] /\
  map retstart (fetch_calls (events_since st (fetch_and_filter ext 200 st).2))
  = [0].
Proof.
  intros ext st.
  destruct (fetch_and_filter ext 200 st) as [[out|x] st'] eqn:Hrun;
    [|vm_compute in Hrun; discriminate].
  destruct (inverted_bounds_empty ext 200 3 st st' out eq_refl
              ltac:(reflexivity) Hrun) as [-> Hoff].
  split; [reflexivity|exact Hoff].
Defined.

(** X8. The retriever keeps no record of its progress: two consecutive
    [fetch_and_filter] calls with the same [max_records] that both return
    request the same windows, the second starting again at offset 0. *)
Theorem refetch_same_windows {S} (ext : Externals S) (M : Z)
  (st st1 st2 : State S) (out1 out2 : list Row) :
  fetch_and_filter ext M st = (Ok out1, st1) ->
  fetch_and_filter ext M st1 = (Ok out2, st2) ->
  map retstart (fetch_calls (events_since st1 st2))
  = map retstart (fetch_calls (events_since st st1)).
Proof.
  intros H1 H2.
  apply fetch_and_filter_spec in H1. apply fetch_and_filter_spec in H2.
  destruct (count (self st)) as [c|] eqn:Hc; [|by destruct H1].
  destruct H1 as (evs1 & Hext1 & _ & Hoff1 & _).
  assert (Hself : self st1 = self st) by apply Hext1.
  rewrite Hself, Hc in H2. destruct H2 as (evs2 & Hext2 & _ & Hoff2 & _).
  rewrite (extends_events _ _ _ Hext1), (extends_events _ _ _ Hext2).
  by rewrite Hoff1, Hoff2.
Qed.

Lemma refetch_same_windows_witness :
  let ext := Demo.ext (Demo.numbered_db 250) None in
  let st := Demo.searched 0 1000000 250 in
  let st1 := (fetch_and_filter ext 200 st).2 in
  let st2 := (fetch_and_filter ext 200 st1).2 in
  map retstart (fetch_calls (events_since st1 st2))
  = map retstart (fetch_calls (events_since st st1)).
Proof.
  intros ext st st1 st2.
  assert (H1 : exists o1, fetch_and_filter ext 200 st = (Ok o1, st1)).
  { unfold st1. destruct (fetch_and_filter ext 200 st) as [[o|x] s] eqn:E;
      [by eexists|vm_compute in E; discriminate]. }
  assert (H2 : exists o2, fetch_and_filter ext 200 st1 = (Ok o2, st2)).
  { unfold st2. destruct (fetch_and_filter ext 200 st1) as [[o|x] s] eqn:E;
      [by eexists|vm_compute in E; discriminate]. }
  destruct H1 as [o1 H1]. destruct H2 as [o2 H2].
  exact (refetch_same_windows ext 200 st st1 st2 o1 o2 H1 H2).
Defined.

(** X9. A search that raises after an earlier search has returned leaves
    the earlier session in place: a following [fetch_and_filter] pages
    through the earlier result set, with the earlier [WebEnv], [QueryKey]
    and count. *)
Theorem failed_research_keeps_session {S} (ext : Externals S) t1 t2 (M c : Z)
  (st st1 st2 st3 : State S) (x : exn) (r : result (list Row)) :
  search ext t1 st = (Ok c, st1) ->
  search ext t2 st1 = (Raise x, st2) ->
  fetch_and_filter ext M st2 = (r, st3) ->
  let calls := fetch_calls (events_since st2 st3) in
  self st2 = self st1 /\
  count (self st2) = Some c /\
  Forall (fun a => env (self st1) = Some (webenv a) /\
                   key (self st1) = Some (query_key a)) calls /\
  map retstart calls `prefix_of` py_range 0 (Z.min c M) 100 /\
  (forall out, r = Ok out -> map retstart calls = py_range 0 (Z.min c M) 100).
Proof.
  intros Hs1 Hs2 Hrun calls.
  apply search_ok in Hs1
    as (h & s' & res & e & k & cs & _ & _ & _ & _ & _ & _ & Hself1 & _).
  apply search_raise in Hs2 as [Hself2 _].
  assert (Hc : count (self st2) = Some c) by (by rewrite Hself2, Hself1).
  apply fetch_and_filter_spec in Hrun. rewrite Hc in Hrun.
  destruct Hrun as (evs & Hext & Hall & Hr).
  unfold calls. rewrite (extends_events _ _ _ Hext).
  split; [done|]. split; [done|]. split.
  { rewrite <- Hself2. eapply Forall_impl; [exact Hall|].
    by intros a (_ & ? & ?). }
  split.
  - destruct r as [out|y]; [|apply Hr]. destruct Hr as [-> _]. done.
  - intros out ->. apply Hr.
Qed.

Lemma failed_research_keeps_session_witness :
  let ext := Faulty.ext Faulty.response3 (Some 1%nat) Demo.three_db in
  let st := init "a@b.c" "k" 0 1000000 Demo.world0 in
  let st1 := (search ext "9606" st).2 in
  let st2 := (search ext "10090" st1).2 in
  let st3 := (fetch_and_filter ext 200 st2).2 in
  (search ext "10090" st1).1 = Raise (PyExn "URLError" "connection reset") /\
  Forall (fun a => Some "MCID_0001" = Some (webenv a) /\
                   Some "1" = Some (query_key a))
         (fetch_calls (events_since st2 st3)) /\
  map retstart (fetch_calls (events_since st2 st3)) `prefix_of` [0].
Proof.
  intros ext st st1 st2 st3. split; [reflexivity|].
  destruct (failed_research_keeps_session ext "9606" "10090" 200 3
              st st1 st2 st3 (PyExn "URLError" "connection reset")
              (fetch_and_filter ext 200 st2).1)
    as (_ & _ & Hall & Hpre & _).
  - reflexivity.
  - reflexivity.
  - apply surjective_pairing.
  - split; [exact Hall|exact Hpre].
Defined.

Lemma fetched_within_windows_witness :
  let ext := Demo.ext (Demo.numbered_db 250) None in
  let st := Demo.searched 0 1000000 250 in
  let st' := (fetch_and_filter ext 200 st).2 in
  Z.of_nat (length (fetched_records (events_since st st'))) <= 200.
Proof.
  intros ext st st'.
  assert (Hrun : exists out, fetch_and_filter ext 200 st = (Ok out, st')).
  { unfold st'. destruct (fetch_and_filter ext 200 st) as [[o|x] s] eqn:E;
      [by eexists|vm_compute in E; discriminate]. }
  destruct Hrun as [out Hrun].
  destruct (fetched_within_windows ext 200 250 st st' out eq_refl Hrun)
    as [_ Hb].
  - assert (Hp : page_sizes (events_since st st') = [100; 100]%nat)
      by (vm_compute; reflexivity).
    rewrite Hp. repeat constructor.
  - apply Hb; [vm_compute; discriminate|reflexivity].
Defined.

(** ** [save_csv]: the file and the index *)

(** X11. [save_csv] either fails or replaces one file.  When the file
    cannot be created, the exception propagates and nothing has changed.
    Otherwise it returns a frame with as many rows as [data], in which the
    index labels are distinct and the row labelled [i] is [data[i]]
    (sorting moves the labels with the rows); the named file then holds
    the header and these rows in frame order, whatever it held before, and
    every other file, standard output, the history and the object are as
    they were. *)
Theorem save_csv_effects {S} (ext : Externals S) (pd : Pandas)
  (data : list Row) (filename : string) (st : State S) :
  match open_w ext filename with
  | Raise e => save_csv ext pd data filename st = (Raise e, st)
  | Ok _ =>
      exists df st',
        save_csv ext pd data filename st = (Ok df, st') /\
        length (df_rows df) = length data /\
        NoDup (map fst (df_rows df)) /\
        (forall i t, (i, t) ∈ df_rows df -> data !! i = Some t) /\
        fs (world st') !! filename
        = Some (CsvFile ["Accession"; "Length"; "Description"]
                        (map snd (df_rows df))) /\
        (forall f, f <> filename -> fs (world st') !! f = fs (world st) !! f) /\
        self st' = self st /\
        stdout (world st') = stdout (world st) /\
        trace (world st') = trace (world st)
  end.
Proof.
  destruct (open_w ext filename) as [[]|e] eqn:Hopen;
    [|by apply save_csv_refused].
  eexists _, _. split; [by apply save_csv_run|]. simpl.
  pose proof (sort_values_perm pd Length false
                (zip (seq 0 (length data)) data)) as Hperm.
  split; [|split; [|split]].
  - rewrite <- Hperm. rewrite length_zip, length_seq. lia.
  - rewrite <- Hperm. change (map fst ?l) with (l.*1).
    rewrite fst_zip by (rewrite length_seq; lia). apply NoDup_seq.
  - intros i t Hin. rewrite <- Hperm in Hin.
    apply list_elem_of_lookup in Hin as [j Hj].
    apply lookup_zip_with_Some in Hj as (i' & t' & [= <- <-] & Hi & Ht).
    apply lookup_seq in Hi as [-> _]. exact Ht.
  - rewrite lookup_insert_eq. split; [reflexivity|].
    split; [intros f Hf; by rewrite lookup_insert_ne|]. done.
Qed.

(** X18. Whenever [save_csv] returns, the rows it has written are in
    descending order of length; input lengths [120, 500, 120, 300] are
    written in the order [500, 300, 120, 120]. *)
Theorem save_csv_descending {S} (ext : Externals S) (pd : Pandas)
  (data : list Row) (filename : string) (st st' : State S) (df : DataFrame) :
  save_csv ext pd data filename st = (Ok df, st') ->
  persisted_rows (world st') filename = map snd (df_rows df) /\
  Sorted length_desc (persisted_rows (world st') filename) /\
  (map Length data = [120; 500; 120; 300] ->
   map Length (persisted_rows (world st') filename) = [500; 300; 120; 120]).
Proof.
  intros Hrun. pose proof (save_csv_returns _ _ _ _ _ _ _ Hrun) as Hopen.
  rewrite (save_csv_run ext pd data filename st Hopen) in Hrun.
  injection Hrun as <- <-. simpl.
  unfold persisted_rows; simpl. rewrite lookup_insert_eq.
  split; [reflexivity|]. split; [apply sorted_rows_desc|].
  intros Hlen.
  apply (@Sorted_unique Z (fun a b : Z => b <= a) ge_trans ge_antisymm).
  - apply (Sorted_fmap Length length_desc (fun a b : Z => b <= a)).
    + intros a b Hab. exact Hab.
    + apply sorted_rows_desc.
  - repeat constructor; lia.
  - rewrite <- (sorted_rows_perm pd data), Hlen.
    apply (Permutation_trans (l' := [500; 120; 120; 300])).
    + apply perm_swap.
    + apply perm_skip. apply (Permutation_trans (l' := [120; 300; 120])).
      * apply perm_skip, perm_swap.
      * apply perm_swap.
Qed.

Lemma save_csv_descending_witness :
  let ext := Demo.ext [] None in
  let st := Demo.searched 0 1000000 4 in
  let run := save_csv ext Demo.pandas_a Demo.rows4 "out.csv" st in
  map Length (persisted_rows (world run.2) "out.csv") = [500; 300; 120; 120].
Proof.
  intros ext st run.
  destruct run as [[df|e] st'] eqn:Hrun; [|vm_compute in Hrun; discriminate].
  destruct (save_csv_descending ext Demo.pandas_a Demo.rows4 "out.csv"
              st st' df Hrun) as (_ & _ & Hlen).
  apply Hlen. reflexivity.
Defined.

(** ** [main]: failures, limits and the files written *)

Lemma main_search_raises_witness :
  let ext := Faulty.ext Faulty.response3 (Some 0%nat) Demo.three_db in
  exists w',
    run_script ext Demo.pandas_a (Demo.args 100 1500) Demo.world0 = (1, w') /\
    fs w' = ∅.
Proof.
  intros ext.
  destruct (main_search_raises ext Demo.pandas_a (Demo.args 100 1500)
              Demo.world0 _ _ eq_refl) as [Hrun Hfs].
  eexists. split; [exact Hrun|exact Hfs].
Defined.

Lemma main_fetch_raises_witness :
  let ext := Demo.ext Demo.three_db (Some 1%nat) in
  exists w',
    run_script ext Demo.pandas_a (Demo.args 100 1500) Demo.world0 = (1, w') /\
    fs w' = ∅.
Proof.
  intros ext.
  destruct (main_fetch_raises ext Demo.pandas_a (Demo.args 100 1500)
              Demo.world0 3 _ _ _ eq_refl ltac:(discriminate) eq_refl)
    as [Hrun Hfs].
  eexists. split; [exact Hrun|exact Hfs].
Defined.

Lemma append_inv_head (t a b : string) : t +:+ a = t +:+ b -> a = b.
Proof.
  induction t as [|c t IH]; simpl; [done|]. intros [= H]. by apply IH.
Qed.

Lemma csv_name_ne_png_name taxid : csv_name taxid <> png_name taxid.
Proof.
  unfold csv_name, png_name. intros H.
  apply append_inv_head, append_inv_head in H. discriminate.
Qed.

(** X14. With a [--limit] of zero or less, a run whose search finds
    records fetches nothing and reports "No records within length range.":
    it exits with status 0, has issued no fetch call and has written no
    file. *)
Theorem main_nonpositive_limit {S} (ext : Externals S) (pd : Pandas)
  (args : Args) (w : World S) (c : Z) (st1 : State S) :
  let taxid := a_taxid args in
  let st0 := (print (searching_msg taxid)
                (init (a_email args) (a_api_key args)
                      (a_min_len args) (a_max_len args) w)).2 in
  search ext taxid st0 = (Ok c, st1) ->
  c <> 0 ->
  a_limit args <= 0 ->
  exists w',
    run_script ext pd args w = (0, w') /\
    stdout w' = stdout w ++ [searching_msg taxid; "Fetching & filtering...";
                             "No records within length range."] /\
    fs w' = fs w /\
    fetch_calls (trace w') = fetch_calls (trace w).
Proof.
  intros taxid st0 Hs Hc Hlim.
  pose proof (search_ok _ _ _ _ _ Hs)
    as (h & s' & res & e & k & cs & _ & _ & _ & _ & _ & _ & Hself
        & (_ & Ho & Hf) & _ & Ht).
  assert (Hrun : fetch_and_filter ext (a_limit args)
                   (print "Fetching & filtering..." st1).2
                 = (Ok [], (print "Fetching & filtering..." st1).2)).
  { apply (fetch_nonpositive_budget_aux ext (a_limit args) c); [|lia].
    simpl. by rewrite Hself. }
  eexists. unfold run_script, main, main_body.
  rewrite bind_print. fold taxid (searching_msg taxid). fold st0.
  rewrite (bind_ok _ _ _ _ _ Hs).
  destruct (Z.eqb_spec c 0) as [|_]; [done|].
  rewrite bind_print, (bind_ok _ _ _ _ _ Hrun). simpl.
  split; [reflexivity|]. rewrite Ho, Hf, Ht. simpl. rewrite <- !app_assoc.
  split; [reflexivity|]. split; [reflexivity|].
  by rewrite fetch_calls_app, app_nil_r.
Qed.

Lemma main_nonpositive_limit_witness :
  let ext := Demo.ext Demo.three_db None in
  let args := mkArgs "a@b.c" "k" "9606" 0 1000000 0 in
  exists w',
    run_script ext Demo.pandas_a args Demo.world0 = (0, w') /\
    stdout w' = ["Searching TaxID 9606..."; "Fetching & filtering...";
                 "No records within length range."] /\
    fs w' = ∅ /\
    fetch_calls (trace w') = [].
Proof.
  intros ext args.
  destruct (main_nonpositive_limit ext Demo.pandas_a args Demo.world0 3 _
              eq_refl ltac:(discriminate) ltac:(reflexivity))
    as (w' & Hrun & Hout & Hfs & Hcalls).
  exists w'. split; [exact Hrun|]. split; [exact Hout|].
  split; [exact Hfs|exact Hcalls].
Defined.

(** X15. In a run that reaches the output stage and in which both output
    files can be created, the CSV file and the plot are two distinct files
    and both are there at the end: the CSV holds the rows returned by
    [fetch_and_filter], reordered by descending length, each with a length
    within [[--min_len, --max_len]]; the plot has the accessions of those
    rows on the x axis and their lengths on the y axis, in the same order;
    every other file is untouched. *)
Theorem main_writes_both_files {S} (ext : Externals S) (pd : Pandas)
  (args : Args) (w : World S) (c : Z) (st1 st2 : State S) (data : list Row) :
  let taxid := a_taxid args in
  let st0 := (print (searching_msg taxid)
                (init (a_email args) (a_api_key args)
                      (a_min_len args) (a_max_len args) w)).2 in
  search ext taxid st0 = (Ok c, st1) ->
  c <> 0 ->
  fetch_and_filter ext (a_limit args)
    (print "Fetching & filtering..." st1).2 = (Ok data, st2) ->
  data <> [] ->
  open_w ext (csv_name taxid) = Ok tt ->
  open_w ext (png_name taxid) = Ok tt ->
  exists w' rows,
    run_script ext pd args w = (0, w') /\
    csv_name taxid <> png_name taxid /\
    fs w' !! csv_name taxid
    = Some (CsvFile ["Accession"; "Length"; "Description"] rows) /\
    fs w' !! png_name taxid
    = Some (PngFile (mkFigure (map Accession rows) (map Length rows)
                              "o" "Sequence Length"
                              "GenBank Sequence Lengths")) /\
    Permutation data rows /\
    Sorted length_desc rows /\
    Forall (fun t => a_min_len args <= Length t <= a_max_len args) rows /\
    (forall f, f <> csv_name taxid -> f <> png_name taxid ->
               fs w' !! f = fs w !! f).
Proof.
  intros taxid st0 Hs Hc Hrun Hne Hcsv Hpng.
  pose proof (main_body_after_fetch ext pd args w c st1 data st2 Hs Hc Hrun)
    as Hmain.
  pose proof (main_frame_after_fetch ext args w c st1 _ st2 Hs Hrun)
    as [_ Hf].
  pose proof (search_ok _ _ _ _ _ Hs)
    as (h & s' & res & e & k & cs & _ & _ & _ & _ & _ & _ & Hself & _).
  pose proof (fetch_and_filter_spec _ _ _ _ _ Hrun) as Hspec.
  simpl in Hspec. rewrite Hself in Hspec. simpl in Hspec.
  destruct Hspec as (evs & _ & _ & _ & _ & Hdata).
  set (sorted := sort_values pd Length false
                   (zip (seq 0 (length data)) data)).
  exists (mkWorld (entrez (world st2)) (server (world st2))
            (trace (world st2))
            (((stdout (world st2) ++ ["Saved CSV: " +:+ csv_name taxid])
              ++ ["Saved plot: " +:+ png_name taxid]))
            (<[png_name taxid :=
                 PngFile (figure_of
                            (mkDataFrame ["Accession"; "Length"; "Description"]
                                         sorted))]>
               (<[csv_name taxid :=
                    CsvFile ["Accession"; "Length"; "Description"]
                            (map snd sorted)]> (fs (world st2))))),
         (map snd sorted).
  split.
  { unfold run_script, main. fold taxid in Hmain. rewrite Hmain.
    destruct data as [|t data']; [done|].
    rewrite (bind_ok _ _ _ _ _ (save_csv_run ext pd (t :: data') _ st2 Hcsv)).
    rewrite (bind_ok _ _ _ _ _ (plot_lengths_run ext _ _ _ Hpng)).
    reflexivity. }
  pose proof (csv_name_ne_png_name taxid) as Hnames.
  split; [exact Hnames|]. simpl.
  split; [by rewrite lookup_insert_ne, lookup_insert_eq|].
  split.
  { rewrite lookup_insert_eq. unfold figure_of; simpl.
    by rewrite !map_map. }
  split; [apply sorted_rows_perm|]. split; [apply sorted_rows_desc|].
  split.
  { unfold sorted. rewrite <- (sorted_rows_perm pd data), Hdata.
    apply List.Forall_forall. intros t Ht. apply in_map_iff in Ht.
    destruct Ht as (r & <- & Hr). apply filter_In in Hr as [_ Hb].
    unfold in_range in Hb. unfold Length, triple; simpl. lia. }
  intros f H1 H2. rewrite !lookup_insert_ne by done. by rewrite Hf.
Qed.

Lemma main_writes_both_files_witness :
  let ext := Demo.ext Demo.three_db None in
  exists w' rows,
    run_script ext Demo.pandas_a (Demo.args 100 3000) Demo.world0 = (0, w') /\
    fs w' !! "taxid_9606_filtered.csv"
    = Some (CsvFile ["Accession"; "Length"; "Description"] rows) /\
    Forall (fun t => 100 <= Length t <= 3000) rows.
Proof.
  intros ext.
  set (st0 := (print (searching_msg "9606")
                 (init "a@b.c" "k" 100 3000 Demo.world0)).2).
  set (st1 := (search ext "9606" st0).2).
  set (st2 := (fetch_and_filter ext 200
                 (print "Fetching & filtering..." st1).2).2).
  assert (Hs : search ext "9606" st0 = (Ok 3, st1))
    by (vm_compute; reflexivity).
  assert (Hrun : fetch_and_filter ext 200
                   (print "Fetching & filtering..." st1).2
                 = (Ok [("A2", 2000, "record A2"); ("A3", 800, "record A3")],
                    st2))
    by (vm_compute; reflexivity).
  destruct (main_writes_both_files ext Demo.pandas_a (Demo.args 100 3000)
              Demo.world0 3 st1 st2
              [("A2", 2000, "record A2"); ("A3", 800, "record A3")]
              Hs ltac:(discriminate) Hrun ltac:(discriminate)
              eq_refl eq_refl)
    as (w' & rows & Hw & _ & Hcsv & _ & _ & _ & Hb & _).
  exists w', rows. split; [exact Hw|]. split; [exact Hcsv|exact Hb].
Defined.

(** X19. When the CSV file cannot be created, a run that has fetched and
    kept records stops there: the exception of [to_csv] reaches the top
    level, the script exits with status 1, no file has been written and
    neither file name is printed. *)
Theorem main_csv_write_fails {S} (ext : Externals S) (pd : Pandas)
  (args : Args) (w : World S) (c : Z) (st1 st2 : State S) (data : list Row)
  (e : exn) :
  let taxid := a_taxid args in
  let st0 := (print (searching_msg taxid)
                (init (a_email args) (a_api_key args)
                      (a_min_len args) (a_max_len args) w)).2 in
  search ext taxid st0 = (Ok c, st1) ->
  c <> 0 ->
  fetch_and_filter ext (a_limit args)
    (print "Fetching & filtering..." st1).2 = (Ok data, st2) ->
  data <> [] ->
  open_w ext (csv_name taxid) = Raise e ->
  run_script ext pd args w = (1, world st2) /\
  fs (world st2) = fs w /\
  stdout (world st2)
  = stdout w ++ [searching_msg taxid; "Fetching & filtering..."].
Proof.
  intros taxid st0 Hs Hc Hrun Hne Hcsv.
  pose proof (main_body_after_fetch ext pd args w c st1 data st2 Hs Hc Hrun)
    as Hmain.
  pose proof (main_frame_after_fetch ext args w c st1 _ st2 Hs Hrun)
    as [Ho Hf].
  split; [|done].
  unfold run_script, main. fold taxid in Hmain. rewrite Hmain.
  destruct data as [|t data]; [done|].
  by rewrite (bind_raise _ _ _ _ _
                (save_csv_refused ext pd (t :: data) _ st2 e Hcsv)).
Qed.

Lemma main_csv_write_fails_witness :
  let ext := Demo.ext Demo.three_db None in
  let args := mkArgs "a@b.c" "k" "9/6" 100 1500 200 in
  exists w',
    run_script ext Demo.pandas_a args Demo.world0 = (1, w') /\
    fs w' = ∅ /\
    stdout w' = ["Searching TaxID 9/6..."; "Fetching & filtering..."].
Proof.
  intros ext args.
  set (st0 := (print (searching_msg "9/6")
                 (init "a@b.c" "k" 100 1500 Demo.world0)).2).
  set (st1 := (search ext "9/6" st0).2).
  set (st2 := (fetch_and_filter ext 200
                 (print "Fetching & filtering..." st1).2).2).
  assert (Hs : search ext "9/6" st0 = (Ok 3, st1))
    by (vm_compute; reflexivity).
  assert (Hrun : fetch_and_filter ext 200
                   (print "Fetching & filtering..." st1).2
                 = (Ok [("A3", 800, "record A3")], st2))
    by (vm_compute; reflexivity).
  destruct (main_csv_write_fails ext Demo.pandas_a args Demo.world0 3 st1 st2
              [("A3", 800, "record A3")]
              (PyExn "OSError" "Cannot save file into a non-existent directory")
              Hs ltac:(discriminate) Hrun ltac:(discriminate) eq_refl)
    as (Hw & Hfs & Hout).
  exists (world st2). split; [exact Hw|]. split; [exact Hfs|exact Hout].
Defined.

(** X20. When the CSV file has been written and the plot cannot be
    created, the exception of [savefig] reaches the top level: the script
    exits with status 1 and prints neither file name, but the CSV file
    stays behind; no other file has changed. *)
Theorem main_plot_write_fails {S} (ext : Externals S) (pd : Pandas)
  (args : Args) (w : World S) (c : Z) (st1 st2 : State S) (data : list Row)
  (e : exn) :
  let taxid := a_taxid args in
  let st0 := (print (searching_msg taxid)
                (init (a_email args) (a_api_key args)
                      (a_min_len args) (a_max_len args) w)).2 in
  search ext taxid st0 = (Ok c, st1) ->
  c <> 0 ->
  fetch_and_filter ext (a_limit args)
    (print "Fetching & filtering..." st1).2 = (Ok data, st2) ->
  data <> [] ->
  open_w ext (csv_name taxid) = Ok tt ->
  open_w ext (png_name taxid) = Raise e ->
  exists w' rows,
    run_script ext pd args w = (1, w') /\
    Permutation data rows /\
    fs w' = <[csv_name taxid :=
                CsvFile ["Accession"; "Length"; "Description"] rows]> (fs w) /\
    stdout w' = stdout w ++ [searching_msg taxid; "Fetching & filtering..."].
Proof.
  intros taxid st0 Hs Hc Hrun Hne Hcsv Hpng.
  pose proof (main_body_after_fetch ext pd args w c st1 data st2 Hs Hc Hrun)
    as Hmain.
  pose proof (main_frame_after_fetch ext args w c st1 _ st2 Hs Hrun)
    as [Ho Hf].
  eexists _, (map snd (sort_values pd Length false
                         (zip (seq 0 (length data)) data))).
  split.
  { unfold run_script, main. fold taxid in Hmain. rewrite Hmain.
    destruct data as [|t data]; [done|].
    rewrite (bind_ok _ _ _ _ _ (save_csv_run ext pd (t :: data) _ st2 Hcsv)).
    rewrite (bind_raise _ _ _ _ _ (plot_lengths_refused ext _ _ _ e Hpng)).
    reflexivity. }
  split; [apply sorted_rows_perm|]. simpl. by rewrite Hf, Ho.
Qed.

Lemma main_plot_write_fails_witness :
  let ext := Faulty.ext_plot_refused Demo.three_db in
  exists w',
    run_script ext Demo.pandas_a (Demo.args 100 1500) Demo.world0 = (1, w') /\
    persisted_rows w' "taxid_9606_filtered.csv" = [("A3", 800, "record A3")] /\
    fs w' !! "taxid_9606_plot.png" = None /\
    stdout w' = ["Searching TaxID 9606..."; "Fetching & filtering..."].
Proof.
  intros ext.
  set (st0 := (print (searching_msg "9606")
                 (init "a@b.c" "k" 100 1500 Demo.world0)).2).
  set (st1 := (search ext "9606" st0).2).
  set (st2 := (fetch_and_filter ext 200
                 (print "Fetching & filtering..." st1).2).2).
  assert (Hs : search ext "9606" st0 = (Ok 3, st1))
    by (vm_compute; reflexivity).
  assert (Hrun : fetch_and_filter ext 200
                   (print "Fetching & filtering..." st1).2
                 = (Ok [("A3", 800, "record A3")], st2))
    by (vm_compute; reflexivity).
  destruct (main_plot_write_fails ext Demo.pandas_a (Demo.args 100 1500)
              Demo.world0 3 st1 st2 [("A3", 800, "record A3")]
              (PyExn "PermissionError" "Permission denied")
              Hs ltac:(discriminate) Hrun ltac:(discriminate)
              eq_refl eq_refl)
    as (w' & rows & Hw & Hperm & Hfs & Hout).
  exists w'. split; [exact Hw|].
  apply Permutation_length_1_inv in Hperm. subst rows.
  unfold persisted_rows. rewrite Hfs.
  split; [by rewrite lookup_insert_eq|]. split; [|exact Hout].
  rewrite lookup_insert_ne by (vm_compute; discriminate). reflexivity.
Defined.


(** X17. The filter drops nothing it should keep: when every record
    fetched by a run that returns has a length within the bounds, the
    result holds the triple of every fetched record, one per record and in
    fetch order. *)
Theorem filter_all_pass {S} (ext : Externals S) (M : Z) (st st' : State S)
  (out : list Row) :
  fetch_and_filter ext M st = (Ok out, st') ->
  let fetched := fetched_records (events_since st st') in
  Forall (fun r => min_len (self st) <= len (seq_ r) <= max_len (self st))
         fetched ->
  out = map triple fetched /\ length out = length fetched.
Proof.
  intros Hrun fetched Hall. apply fetch_and_filter_spec in Hrun.
  destruct (count (self st)) as [c|]; [|by destruct Hrun].
  destruct Hrun as (evs & Hext & _ & _ & _ & ->).
  unfold fetched in *. rewrite (extends_events _ _ _ Hext) in *.
  assert (Hf : List.filter (in_range (min_len (self st)) (max_len (self st)))
                 (fetched_records evs) = fetched_records evs).
  { induction Hall as [|r l Hr _ IH]; [reflexivity|]. simpl.
    unfold in_range at 1.
    destruct (Z.leb_spec (min_len (self st)) (len (seq_ r)));
      destruct (Z.leb_spec (len (seq_ r)) (max_len (self st)));
      simpl; try lia. by rewrite IH. }
  rewrite Hf. split; [reflexivity|]. by rewrite length_map.
Qed.

Lemma filter_all_pass_witness :
  let ext := Demo.ext Demo.three_db None in
  let st := Demo.searched 0 1000000 3 in
  exists out st',
    fetch_and_filter ext 200 st = (Ok out, st') /\
    out = map triple (fetched_records (events_since st st')) /\
    length out = 3%nat.
Proof.
  intros ext st.
  destruct (fetch_and_filter ext 200 st) as [[out|x] st'] eqn:Hrun;
    [|vm_compute in Hrun; discriminate].
  exists out, st'. split; [reflexivity|].
  assert (Hf : fetched_records (events_since st st') = Demo.three_db).
  { assert (Hst : st' = (fetch_and_filter ext 200 st).2) by (by rewrite Hrun).
    rewrite Hst. vm_compute. reflexivity. }
  destruct (filter_all_pass ext 200 st st' out Hrun) as [Hout Hlen].
  - rewrite Hf. repeat constructor; vm_compute; discriminate.
  - split; [exact Hout|]. by rewrite Hlen, Hf.
Defined.
